(** * sample-mcp-server-tos: the TOS adapter and the MCP handlers

    A shallow embedding of [src/tos_mcp_server/resources/tos_resource.py]
    (class [TosResource]) and [src/tos_mcp_server/server.py] (the handlers
    [list_resources], [read_resource] and [call_tool]), and the properties
    of the specification stated over it.

    Conventions.
    - A Python [str] is a Rocq [string]: the characters of an ASCII text
      and, beyond ASCII, the bytes of the UTF-8 encoding, so that
      [bytes.decode('utf-8')] checks the bytes and keeps them. [lower],
      [strip] and [repr] treat the ASCII range as Python does and leave
      the bytes above 127 as they are.
    - A Python [bytes] is a [list byte].
    - A raised exception is a value of [exn]. A function body is a
      computation in the monad [M], which records every request sent to
      the storage service and every answer, every log record and every
      append to the list [resources], in program order, next to the value
      returned or the exception raised.
    - The storage SDK ([tos.TosClientV2]) is not part of the repository:
      its answers are the fields of a [Client.t] record, and every property
      holds for all of them.
    - Coroutines run on a model of the [asyncio] loop: a task runs until it
      suspends, and the tasks of [gather] take turns in the order in which
      they were queued. *)

From Stdlib Require Import ZArith NArith List String Ascii Bool Lia.
From Stdlib Require Import Strings.Byte DecimalString.
Import ListNotations.

Local Open Scope string_scope.
Local Open Scope list_scope.

Definition bytes := list byte.

(** ** The Python runtime used by the two source files *)

Module Py.

Definition code (c : ascii) : N := N_of_ascii c.

(** [str.lower] *)
Definition lower_char (c : ascii) : ascii :=
  if ((65 <=? code c) && (code c <=? 90))%N then ascii_of_N (code c + 32) else c.

Fixpoint lower (s : string) : string :=
  match s with
  | EmptyString => EmptyString
  | String c s' => String (lower_char c) (lower s')
  end.

(** [str.startswith] and [str.endswith] *)
Definition startswith (s p : string) : bool := String.prefix p s.

Fixpoint endswith (s suffix : string) : bool :=
  (s =? suffix)
  || match s with
     | EmptyString => false
     | String _ s' => endswith s' suffix
     end.

(** The slice [s[n:]] *)
Fixpoint slice_from (n : nat) (s : string) : string :=
  match n, s with
  | O, _ => s
  | S _, EmptyString => EmptyString
  | S n', String _ s' => slice_from n' s'
  end.

(** [s.split(sep, maxsplit)] for a separator of one character;
    [maxsplit = None] is the call with no bound. *)
Fixpoint split (sep : ascii) (maxsplit : option nat) (s : string) : list string :=
  match s with
  | EmptyString => [EmptyString]
  | String c s' =>
      let go m :=
        match split sep m s' with
        | [] => [String c EmptyString]
        | h :: t => String c h :: t
        end in
      if (c =? sep)%char then
        match maxsplit with
        | Some O => go (Some O)
        | Some (S m) => EmptyString :: split sep (Some m) s'
        | None => EmptyString :: split sep None s'
        end
      else go maxsplit
  end.

(** [str.strip]: white space is removed at both ends *)
Definition isspace (c : ascii) : bool :=
  (((9 <=? code c) && (code c <=? 13)) || ((28 <=? code c) && (code c <=? 32)))%N.

Fixpoint lstrip (s : string) : string :=
  match s with
  | EmptyString => EmptyString
  | String c s' => if isspace c then lstrip s' else s
  end.

Fixpoint rstrip (s : string) : string :=
  match s with
  | EmptyString => EmptyString
  | String c s' =>
      match rstrip s' with
      | EmptyString => if isspace c then EmptyString else String c EmptyString
      | r => String c r
      end
  end.

Definition strip (s : string) : string := rstrip (lstrip s).

(** Two lower-case hexadecimal digits, as in the escape [\xhh] *)
Definition hex_digit (n : N) : ascii :=
  if (n <? 10)%N then ascii_of_N (48 + n) else ascii_of_N (87 + n).

Definition hex2 (n : N) : string :=
  String (hex_digit (n / 16)) (String (hex_digit (n mod 16)) EmptyString).

Definition backslash : ascii := ascii_of_N 92.
Definition squote : ascii := ascii_of_N 39.
Definition dquote : ascii := ascii_of_N 34.

Fixpoint contains_char (c : ascii) (s : string) : bool :=
  match s with
  | EmptyString => false
  | String d s' => (d =? c)%char || contains_char c s'
  end.

(** The quote [repr] picks: the single quote, unless the text has one
    and has no double quote. *)
Definition repr_quote (s : string) : ascii :=
  if contains_char squote s && negb (contains_char dquote s) then dquote else squote.

(** One character of [repr]; [high] says what becomes of a character
    above 126: [bytes] escapes it, [str] keeps it. *)
Definition repr_char (escape_high : bool) (quote c : ascii) : string :=
  if ((c =? quote) || (c =? backslash))%char then String backslash (String c EmptyString)
  else if (code c =? 9)%N then String backslash "t"
  else if (code c =? 10)%N then String backslash "n"
  else if (code c =? 13)%N then String backslash "r"
  else if ((code c <? 32) || (code c =? 127))%N then String backslash ("x" ++ hex2 (code c))
  else if ((127 <? code c)%N && escape_high) then String backslash ("x" ++ hex2 (code c))
  else String c EmptyString.

Fixpoint repr_body (escape_high : bool) (quote : ascii) (s : string) : string :=
  match s with
  | EmptyString => EmptyString
  | String c s' => repr_char escape_high quote c ++ repr_body escape_high quote s'
  end.

(** [repr(s)] for [s : str] *)
Definition repr_str (s : string) : string :=
  let q := repr_quote s in
  String q (repr_body false q s ++ String q EmptyString).

(** [str(b)] and [repr(b)] for [b : bytes]: the literal [b'...'] *)
Definition repr_bytes (b : bytes) : string :=
  let s := string_of_list_byte b in
  let q := repr_quote s in
  String "b" (String q (repr_body true q s ++ String q EmptyString)).

(** [str(l)] for a list of [str] *)
Definition repr_list (l : list string) : string :=
  "[" ++ String.concat ", " (map repr_str l) ++ "]".

(** [base64.b64encode] *)
Definition b64_alphabet : list ascii :=
  list_ascii_of_string
    "ABCDEFGHIJKLMNOPQRSTUVWXYZabcdefghijklmnopqrstuvwxyz0123456789+/".

Definition b64_pad : byte := byte_of_ascii "=".

Definition b64_char (n : N) : byte :=
  byte_of_ascii (nth (N.to_nat n) b64_alphabet "="%char).

Fixpoint b64encode (b : bytes) : bytes :=
  match b with
  | [] => []
  | [x] =>
      let x := Byte.to_N x in
      [b64_char (N.shiftr x 2);
       b64_char (N.shiftl (N.land x 3) 4);
       b64_pad; b64_pad]
  | [x; y] =>
      let x := Byte.to_N x in
      let y := Byte.to_N y in
      [b64_char (N.shiftr x 2);
       b64_char (N.lor (N.shiftl (N.land x 3) 4) (N.shiftr y 4));
       b64_char (N.shiftl (N.land y 15) 2);
       b64_pad]
  | x :: y :: z :: rest =>
      let x := Byte.to_N x in
      let y := Byte.to_N y in
      let z := Byte.to_N z in
      b64_char (N.shiftr x 2)
      :: b64_char (N.lor (N.shiftl (N.land x 3) 4) (N.shiftr y 4))
      :: b64_char (N.lor (N.shiftl (N.land y 15) 2) (N.shiftr z 6))
      :: b64_char (N.land z 63)
      :: b64encode rest
  end.

(** Strict UTF-8, as [bytes.decode('utf-8')] accepts it. The scanner
    reads one byte at a time: [Start] between characters, [Need after lo
    hi start] inside the character that began at [start], whose next
    byte must lie in [lo..hi] and is followed by [after] more. It returns
    the [(start, end, reason)] of the first error, the attributes of
    Python's [UnicodeDecodeError], or [None] on well-formed input. *)
Definition in_range (lo hi : N) (b : byte) : bool :=
  ((lo <=? Byte.to_N b) && (Byte.to_N b <=? hi))%N.

Inductive utf8_state :=
| Start
| Need (after : nat) (lo hi : N) (start : nat).

Fixpoint utf8_scan (st : utf8_state) (pos : nat) (b : bytes)
  : option (nat * nat * string) :=
  match b with
  | [] =>
      match st with
      | Start => None
      | Need _ _ _ start => Some (start, pos, "unexpected end of data")
      end
  | x :: r =>
      let n := Byte.to_N x in
      match st with
      | Start =>
          if (n <? 128)%N then utf8_scan Start (S pos) r
          else if in_range 194 223 x then utf8_scan (Need 0 128 191 pos) (S pos) r
          else if in_range 224 239 x then
            utf8_scan (Need 1 (if (n =? 224)%N then 160 else 128)
                              (if (n =? 237)%N then 159 else 191) pos) (S pos) r
          else if in_range 240 244 x then
            utf8_scan (Need 2 (if (n =? 240)%N then 144 else 128)
                              (if (n =? 244)%N then 143 else 191) pos) (S pos) r
          else Some (pos, S pos, "invalid start byte")
      | Need after lo hi start =>
          if in_range lo hi x then
            match after with
            | O => utf8_scan Start (S pos) r
            | S after' => utf8_scan (Need after' 128 191 start) (S pos) r
            end
          else Some (start, pos, "invalid continuation byte")
      end
  end.

(** Decimal digits of a natural number, as [str(n)] prints them *)
Definition str_nat (n : nat) : string := NilZero.string_of_uint (Nat.to_uint n).

End Py.

(** ** Exceptions *)

Inductive exn :=
| ValueError (msg : string)
| UnicodeDecodeError (object : bytes) (start stop : nat) (reason : string)
| ValidationError (model field : string)
| TosServerError (status_code : Z) (message : string) (text : string)
| OtherError (class_name : string) (text : string).

(** [str(e)]. A [TosServerError] carries the text the SDK prints for it;
    [OtherError] stands for any class that is neither a [ValueError] nor a
    [TosServerError]. For pydantic's [ValidationError] the text is the
    head of its report. *)
Definition str_exn (e : exn) : string :=
  match e with
  | ValueError msg => msg
  | UnicodeDecodeError object start stop reason =>
      if (stop =? S start)%nat then
        "'utf-8' codec can't decode byte 0x"
        ++ Py.hex2 (Byte.to_N (nth start object "000"%byte))
        ++ " in position " ++ Py.str_nat start ++ ": " ++ reason
      else
        "'utf-8' codec can't decode bytes in position "
        ++ Py.str_nat start ++ "-" ++ Py.str_nat (stop - 1) ++ ": " ++ reason
  | ValidationError model field =>
      "1 validation error for " ++ model ++ String (ascii_of_N 10) field
      ++ String (ascii_of_N 10) "  Field required"
  | TosServerError _ _ text => text
  | OtherError _ text => text
  end.

(** [isinstance(e, ValueError)]: [UnicodeDecodeError] and pydantic's
    [ValidationError] are subclasses of [ValueError]. *)
Definition is_ValueError (e : exn) : bool :=
  match e with
  | ValueError _ | UnicodeDecodeError _ _ _ _ | ValidationError _ _ => true
  | _ => false
  end.

(** ** Values of the storage SDK ([tos.models2]) and of the protocol ([mcp.types]) *)

Inductive pyval :=
| PNone
| PStr (s : string)
| PInt (z : Z)
| PBool (b : bool).

(** The arguments of one call: positional ones, then keyword ones
    (a Python [dict], in insertion order). *)
Definition dict (V : Type) := list (string * V).

Record call_args := { positional : list pyval; keywords : dict pyval }.

Module ListedBucket.
Record t := { name : string; location : string; creation_date : string }.
End ListedBucket.

Module ListedObject.
Record t := { key : string; size : Z; last_modified : string }.
End ListedObject.

Module ListBucketsOutput.
Record t := { buckets : list ListedBucket.t }.
End ListBucketsOutput.

Module ListObjectsOutput.
(** [text] is what [str] prints for the output object. *)
Record t := { contents : list ListedObject.t; text : string }.
End ListObjectsOutput.

Module StreamBody.
(** [data] is the sequence of chunks the body yields, [items] its
    [items()]; [read()] returns the whole body. *)
Record t := { data : list bytes; items : list (string * string) }.
Definition read (c : t) : bytes := List.concat (data c).
End StreamBody.

Module GetObjectOutput.
Record t := { content_type : option string; content : StreamBody.t }.
End GetObjectOutput.

(** The answers of the storage service to the three client methods. *)
Module Client.
Record t := {
  list_buckets : exn + ListBucketsOutput.t;
  list_objects : call_args -> exn + ListObjectsOutput.t;
  get_object : call_args -> exn + GetObjectOutput.t }.
End Client.

Module Resource.
(** [list_resources] passes the three fields; the URI is kept as text. *)
Record t := { uri : string; name : string; mimeType : string }.
End Resource.

Module BlobResourceContents.
Record t := { blob : string; uri : string; mimeType : option string }.
End BlobResourceContents.

Module ReadResourceResult.
Record t := { contents : list BlobResourceContents.t }.
End ReadResourceResult.

Module TextContent.
Record t := { type : string; text : string }.

(** The constructor of the pydantic model [mcp.types.TextContent]: the
    fields [type] (the literal ["text"]) and [text] are both required and
    have no default, so a call that leaves [type] out raises
    [ValidationError]. The argument is [None] for a keyword that the call
    does not pass. *)
Definition make (type : option string) (text : string) : exn + t :=
  match type with
  | Some ty =>
      if (ty =? "text")%string then inr {| type := ty; text := text |}
      else inl (ValidationError "TextContent" "type")
  | None => inl (ValidationError "TextContent" "type")
  end.
End TextContent.

(** ** Effects *)

Inductive event :=
| Request (method : string) (args : call_args)
| Response (method : string) (args : call_args)
| Log (level : string) (msg : string)
| LogDebug (obj : ReadResourceResult.t)
| Append (r : Resource.t)
| SemAcquire (value : nat)
| SemRelease.

Definition trace := list event.

(** A computation: what it did, and how it ended. *)
Definition M (A : Type) : Type := (trace * (exn + A))%type.

Definition ret {A} (a : A) : M A := ([], inr a).
Definition raise {A} (e : exn) : M A := ([], inl e).
Definition emit (ev : event) : M unit := ([ev], inr tt).

Definition bind {A B} (m : M A) (k : A -> M B) : M B :=
  match m with
  | (t, inl e) => (t, inl e)
  | (t, inr a) => let (t', r) := k a in (t ++ t', r)
  end.

(** [try: m  except C1 as e: h1 e  except C2 as e: h2 e ...]: a clause is
    the [isinstance] test of its class and its handler; the first clause
    whose test accepts the exception handles it, and an exception raised by
    a handler is not handled again. *)
Definition clause (A : Type) : Type := ((exn -> bool) * (exn -> M A))%type.

Fixpoint handle {A} (clauses : list (clause A)) (e : exn) : M A :=
  match clauses with
  | [] => raise e
  | (test, h) :: rest => if test e then h e else handle rest e
  end.

Definition try_except {A} (m : M A) (clauses : list (clause A)) : M A :=
  match m with
  | (t, inl e) => let (t', r) := handle clauses e in (t ++ t', r)
  | (t, inr a) => (t, inr a)
  end.

Definition lift {A} (r : exn + A) : M A := ([], r).

Declare Scope m_scope.
Delimit Scope m_scope with M.
Notation "x <- m ;; k" := (bind m (fun x => k))
  (at level 61, m at next level, right associativity) : m_scope.
Notation "m ;; k" := (bind m (fun _ => k))
  (at level 61, right associativity) : m_scope.

Definition events {A} (m : M A) : trace := fst m.
Definition result {A} (m : M A) : exn + A := snd m.

Local Open Scope m_scope.

(** One blocking call of a client method: the request goes out and the
    answer (a value or an exception) comes back before the caller goes on. *)
Definition call {A} (method : string) (args : call_args) (answer : exn + A) : M A :=
  emit (Request method args) ;; emit (Response method args) ;; lift answer.

Definition no_args : call_args := {| positional := []; keywords := [] |}.
Definition kwargs (d : dict pyval) : call_args := {| positional := []; keywords := d |}.
Definition args (l : list pyval) : call_args := {| positional := l; keywords := [] |}.

Definition is_TosServerError (e : exn) : bool :=
  match e with TosServerError _ _ _ => true | _ => false end.
Definition is_Exception (e : exn) : bool := true.

(** [e.message] and [e.status_code] of a [TosServerError] *)
Definition message_of (e : exn) : string :=
  match e with TosServerError _ m _ => m | _ => EmptyString end.
Definition status_code_of (e : exn) : Z :=
  match e with TosServerError c _ _ => c | _ => 0%Z end.

(** [d[k] = v] on a [dict] *)
Fixpoint dict_set {V} (d : dict V) (k : string) (v : V) : dict V :=
  match d with
  | [] => [(k, v)]
  | (k', v') :: d' => if (k' =? k)%string then (k, v) :: d' else (k', v') :: dict_set d' k v
  end.

(** [bytes.decode('utf-8')]: well-formed input decodes to the text with
    these bytes. *)
Definition decode_utf8 (b : bytes) : M string :=
  match Py.utf8_scan Py.Start 0 b with
  | None => ret (string_of_list_byte b)
  | Some (start, stop, reason) => raise (UnicodeDecodeError b start stop reason)
  end.

(** [a, b = l] *)
Definition unpack2 (l : list string) : M (string * string) :=
  match l with
  | [a; b] => ret (a, b)
  | _ :: _ :: _ :: _ => raise (ValueError "too many values to unpack (expected 2)")
  | _ =>
      raise (ValueError ("not enough values to unpack (expected 2, got "
                         ++ Py.str_nat (List.length l) ++ ")"))
  end.

(** [for x in l: body x] *)
Fixpoint for_each {A} (l : list A) (body : A -> M unit) : M unit :=
  match l with
  | [] => ret tt
  | x :: l' => body x ;; for_each l' body
  end.

(** ** [tos_resource.py]: class [TosResource] *)

Module TosResource.

Record t := {
  client : Client.t;
  max_buckets : Z;
  configured_buckets : list string }.

(** The dictionary [get_object] returns *)
Record object_dict := {
  content_type : option string;
  content : bytes;
  metadata : dict string }.

Definition _get_configured_buckets (getenv : string -> option string) : list string :=
  match getenv "TOS_BUCKETS" with
  | Some (String c s as bucket_list) => map Py.strip (Py.split "," None bucket_list)
  | _ => []
  end.

Definition __init__ (getenv : string -> option string) (sdk : Client.t)
    (region : option string) (max_buckets : Z) : t :=
  {| client := sdk;
     max_buckets := max_buckets;
     configured_buckets := _get_configured_buckets getenv |}.

Definition list_buckets (self : t) : M (list ListedBucket.t) :=
  try_except
    (response <- call "list_buckets" no_args (Client.list_buckets (client self)) ;;
     match configured_buckets self with
     | _ :: _ =>
         ret (filter (fun b => existsb (String.eqb (ListedBucket.name b))
                                       (configured_buckets self))
                     (ListBucketsOutput.buckets response))
     | [] => ret (ListBucketsOutput.buckets response)
     end)
    [(is_TosServerError,
      fun e => emit (Log "error" ("List buckets error: " ++ message_of e)) ;; raise e)].

Definition list_objects (self : t) (bucket prefix : string) (marker : option string)
  : M (list ListedObject.t) :=
  try_except
    (let a := kwargs [("bucket", PStr bucket);
                      ("prefix", PStr prefix);
                      ("marker", match marker with Some m => PStr m | None => PNone end);
                      ("max_keys", PInt 1000)] in
     response <- call "list_objects" a (Client.list_objects (client self) a) ;;
     ret (ListObjectsOutput.contents response))
    [(is_TosServerError,
      fun e => emit (Log "error" ("List objects error in " ++ bucket ++ ": " ++ message_of e)) ;;
               raise e)].

Definition get_object (self : t) (bucket key : string) : M object_dict :=
  try_except
    (let a := args [PStr bucket; PStr key] in
     response <- call "get_object" a (Client.get_object (client self) a) ;;
     let content :=
       fold_left (fun content chunk => content ++ chunk)
                 (StreamBody.data (GetObjectOutput.content response)) [] in
     ret {| content_type := GetObjectOutput.content_type response;
            content := content;
            metadata :=
              fold_left (fun d kv => dict_set d (Py.lower (fst kv)) (snd kv))
                        (StreamBody.items (GetObjectOutput.content response)) [] |})
    [(is_TosServerError,
      fun e =>
        if (status_code_of e =? 404)%Z then
          raise (ValueError ("Object " ++ key ++ " not found in " ++ bucket))
        else
          emit (Log "error" ("Get object error: " ++ message_of e)) ;; raise e)].

Definition text_exts : list string := [".txt"; ".log"; ".csv"; ".json"; ".xml"; ".md"].

Definition is_text_file (key : string) : bool :=
  existsb (fun ext => Py.endswith (Py.lower key) ext) text_exts.

End TosResource.

(** ** The event loop ([asyncio]) *)

Module asyncio.

(** A coroutine in flight: it has returned or raised, or it performs one
    more effect, or it stands at a point where it hands control back to
    the loop ([Suspend]) and is run again later. *)
Inductive coroutine (A : Type) : Type :=
| Return (r : exn + A)
| Do (ev : event) (k : coroutine A)
| Suspend (k : coroutine A).
Arguments Return {A} r.
Arguments Do {A} ev k.
Arguments Suspend {A} k.

Fixpoint steps {A} (t : trace) (r : exn + A) : coroutine A :=
  match t with
  | [] => Return r
  | ev :: t' => Do ev (steps t' r)
  end.

(** An [async def] whose body reaches no suspension point: each [await]
    in it is on a coroutine of the same kind, so the body runs from its
    first statement to its end in one turn of the loop. *)
Definition async_def {A} (body : M A) : coroutine A := steps (fst body) (snd body).

(** One turn of a task: it runs up to its next suspension point. *)
Fixpoint resume {A} (c : coroutine A) : trace * ((exn + A) + coroutine A) :=
  match c with
  | Return r => ([], inl r)
  | Do ev k => let (t, o) := resume k in (ev :: t, o)
  | Suspend k => ([], inr k)
  end.

Fixpoint suspensions {A} (c : coroutine A) : nat :=
  match c with
  | Return _ => 0
  | Do _ k => suspensions k
  | Suspend k => S (suspensions k)
  end.

(** The loop takes the task at the head of the ready queue, gives it one
    turn, and puts it back at the end of the queue when it suspended. It
    returns what happened and the outcomes in order of completion. *)
Fixpoint run {A} (fuel : nat) (ready : list (nat * coroutine A))
  : trace * list (nat * (exn + A)) :=
  match fuel, ready with
  | S fuel', (i, c) :: rest =>
      let (t, o) := resume c in
      match o with
      | inl r => let (t', done) := run fuel' rest in (t ++ t', (i, r) :: done)
      | inr k => let (t', done) := run fuel' (rest ++ [(i, k)]) in (t ++ t', done)
      end
  | _, _ => ([], [])
  end.

(** The number of turns that completes every task of [cs]. *)
Definition turns {A} (cs : list (coroutine A)) : nat :=
  fold_right (fun c n => S (suspensions c) + n) 0 cs.

Fixpoint first_exception {A} (done : list (nat * (exn + A))) : option exn :=
  match done with
  | [] => None
  | (_, inl e) :: _ => Some e
  | (_, inr _) :: done' => first_exception done'
  end.

Fixpoint outcome {A} (i : nat) (done : list (nat * (exn + A))) : list A :=
  match done with
  | [] => []
  | (j, r) :: done' =>
      if (i =? j)%nat then match r with inr a => [a] | inl _ => [] end
      else outcome i done'
  end.

(** [await asyncio.gather] on the coroutines [cs]: one task per
    coroutine, queued in the order of the arguments. The first exception
    raised by a task is
    raised in the caller and the other tasks are not cancelled; without
    an exception the results come back in the order of the arguments.
    When no task suspends, as for the tasks of [list_resources], every
    task has run to its end before the caller is resumed. *)
Definition gather {A} (cs : list (coroutine A)) : M (list A) :=
  let (t, done) := run (turns cs) (combine (seq 0 (List.length cs)) cs) in
  match first_exception done with
  | Some e => (t, inl e)
  | None => (t, inr (flat_map (fun i => outcome i done) (seq 0 (List.length cs))))
  end.

(** [async with sem: body] on a semaphore whose value is positive:
    [acquire] takes one unit without waiting and [release] gives it back
    when the body has ended, normally or by an exception. *)
Definition async_with {A} (value : nat) (body : M A) : M A :=
  match emit (SemAcquire value) ;; body with
  | (t, r) => (t ++ [SemRelease], r)
  end.

End asyncio.

(** ** [server.py]: the handlers *)

Module server.

(** The body of the nested [async def process_bucket(bucket)]. Its one
    [await] is on [tos_resource.list_objects], whose own body has no
    [await]: the client call in it is an ordinary call. *)
Definition process_bucket_body (tos_resource : TosResource.t) (bucket : ListedBucket.t)
  : M unit :=
  objects <- TosResource.list_objects tos_resource (ListedBucket.name bucket) "" None ;;
  for_each objects (fun obj =>
    let mime_type :=
      if TosResource.is_text_file (ListedObject.key obj)
      then "text/plain" else "application/octet-stream" in
    emit (Append {| Resource.uri :=
                      "tos://" ++ ListedBucket.name bucket ++ "/" ++ ListedObject.key obj;
                    Resource.name := ListedObject.key obj;
                    Resource.mimeType := mime_type |})).

Definition process_bucket (tos_resource : TosResource.t) (bucket : ListedBucket.t)
  : asyncio.coroutine unit :=
  asyncio.async_def (process_bucket_body tos_resource bucket).

(** The list [resources] after the effects of [t]: it starts empty and
    grows by [resources.append]. *)
Fixpoint appended (t : trace) : list Resource.t :=
  match t with
  | [] => []
  | Append r :: t' => r :: appended t'
  | _ :: t' => appended t'
  end.

Definition list_resources (tos_resource : TosResource.t) : M (list Resource.t) :=
  let body :=
    try_except
      (buckets <- TosResource.list_buckets tos_resource ;;
       asyncio.async_with 3
         (asyncio.gather (map (process_bucket tos_resource) buckets)) ;;
       ret tt)
      [(is_Exception,
        fun e => emit (Log "error" ("Resource listing failed: " ++ str_exn e)) ;; raise e)] in
  body ;; ret (appended (events body)).

Definition read_resource (tos_resource : TosResource.t) (uri : string) : M string :=
  try_except
    (if negb (Py.startswith uri "tos://") then raise (ValueError "Invalid TOS URI format")
     else
       let path := Py.slice_from 6 uri in
       bk <- unpack2 (Py.split "/" (Some 1%nat) path) ;;
       let (bucket, key) := (bk : string * string) in
       response <- TosResource.get_object tos_resource bucket key ;;
       if TosResource.is_text_file key then
         text_content <- decode_utf8 (Py.b64encode (TosResource.content response)) ;;
         ret text_content
       else
         let text_content := Py.repr_bytes (Py.b64encode (TosResource.content response)) in
         let result :=
           {| ReadResourceResult.contents :=
                [ {| BlobResourceContents.blob := text_content;
                     BlobResourceContents.uri := uri;
                     BlobResourceContents.mimeType := TosResource.content_type response |} ] |} in
         emit (LogDebug result) ;;
         ret text_content)
    [(is_ValueError,
      fun e => emit (Log "error" ("URI parsing error: " ++ str_exn e)) ;; raise e);
     (is_Exception,
      fun e => emit (Log "error" ("Read resource failed: " ++ str_exn e)) ;; raise e)].

(** The list of one [TextContent] that a branch of [call_tool] returns. *)
Definition text_payload (type : option string) (text : string) : M (list TextContent.t) :=
  c <- lift (TextContent.make type text) ;; ret [c].

Definition call_tool (tos_resource : TosResource.t) (name : string) (arguments : dict pyval)
  : M (list TextContent.t) :=
  let client := TosResource.client tos_resource in
  try_except
    (if (name =? "ListBuckets")%string then
       result <- call "list_buckets" no_args (Client.list_buckets client) ;;
       text_payload (Some "text")
         (Py.repr_list (map ListedBucket.name (ListBucketsOutput.buckets result)))
     else if (name =? "ListObjectsV2")%string then
       objects <- call "list_objects" (kwargs arguments)
                       (Client.list_objects client (kwargs arguments)) ;;
       text_payload (Some "text") (ListObjectsOutput.text objects)
     else if (name =? "GetObject")%string then
       content <- call "get_object" (kwargs arguments)
                       (Client.get_object client (kwargs arguments)) ;;
       text <- decode_utf8 (StreamBody.read (GetObjectOutput.content content)) ;;
       text_payload (Some "text") text
     else raise (ValueError "Unsupported operation"))
    [(is_Exception,
      fun e => text_payload None ("Error: " ++ str_exn e))].

End server.

(** A small storage service for examples. *)
Definition bucket_named (n : string) : ListedBucket.t :=
  {| ListedBucket.name := n; ListedBucket.location := "cn-beijing";
     ListedBucket.creation_date := "2024-01-01" |}.

Definition object_named (k : string) : ListedObject.t :=
  {| ListedObject.key := k; ListedObject.size := 2; ListedObject.last_modified := "2024-01-01" |}.

Definition demo_client : Client.t :=
  {| Client.list_buckets :=
       inr {| ListBucketsOutput.buckets := [bucket_named "a"; bucket_named "b"] |};
     Client.list_objects := fun _ =>
       inr {| ListObjectsOutput.contents := [object_named "k"; object_named "n.txt"];
              ListObjectsOutput.text := "<ListObjectsOutput>" |};
     Client.get_object := fun _ =>
       inr {| GetObjectOutput.content_type := Some "application/octet-stream";
              GetObjectOutput.content :=
                {| StreamBody.data := [list_byte_of_string "h"; list_byte_of_string "i"];
                   StreamBody.items := [("Content-Length", "2")] |} |} |}.

Definition demo (allow : list string) : TosResource.t :=
  {| TosResource.client := demo_client;
     TosResource.max_buckets := 5;
     TosResource.configured_buckets := allow |}.

(** A storage service that answers every request with the exception [e]. *)
Definition failing (e : exn) : TosResource.t :=
  {| TosResource.client :=
       {| Client.list_buckets := inl e;
          Client.list_objects := fun _ => inl e;
          Client.get_object := fun _ => inl e |};
     TosResource.max_buckets := 5;
     TosResource.configured_buckets := [] |}.

(** [d.get(k)] on a [dict] *)
Fixpoint dict_get {V} (d : dict V) (k : string) : option V :=
  match d with
  | [] => None
  | (k', v) :: d' => if (k' =? k)%string then Some v else dict_get d' k
  end.

(** A storage service with the buckets ["a"], ["b"], ["c"] and ["d"]; it
    answers the listing of ["b"] with a server error and every other
    listing with one object. *)
Definition flaky_client : Client.t :=
  {| Client.list_buckets :=
       inr {| ListBucketsOutput.buckets :=
                [bucket_named "a"; bucket_named "b"; bucket_named "c"; bucket_named "d"] |};
     Client.list_objects := fun a =>
       match dict_get (keywords a) "bucket" with
       | Some (PStr "b") => inl (TosServerError 500 "InternalError" "internal error")
       | _ => inr {| ListObjectsOutput.contents := [object_named "k"];
                     ListObjectsOutput.text := "<ListObjectsOutput>" |}
       end;
     Client.get_object := fun _ => inl (TosServerError 404 "NoSuchKey" "not found") |}.

Definition flaky : TosResource.t :=
  {| TosResource.client := flaky_client;
     TosResource.max_buckets := 5;
     TosResource.configured_buckets := [] |}.

(** The requests a computation sent to the storage service. *)
Fixpoint requests (t : trace) : list (string * call_args) :=
  match t with
  | [] => []
  | Request m a :: t' => (m, a) :: requests t'
  | _ :: t' => requests t'
  end.

(** The allow-list test in the words of the specification: the name of the
    bucket appears in the list. *)
Definition allowed (L : list string) (b : ListedBucket.t) : bool :=
  if in_dec string_dec (ListedBucket.name b) L then true else false.

(** The first exception in a sequence of outcomes. *)
Fixpoint first_error {A} (rs : list (exn + A)) : option exn :=
  match rs with
  | [] => None
  | inl e :: _ => Some e
  | inr _ :: rs' => first_error rs'
  end.

(** The object listings in flight after the effects of [t]: those whose
    request has gone out and whose answer has not come back. *)
Definition delta (ev : event) : Z :=
  match ev with
  | Request m _ => if (m =? "list_objects")%string then 1 else 0
  | Response m _ => if (m =? "list_objects")%string then -1 else 0
  | _ => 0
  end.

Fixpoint in_flight (t : trace) : Z :=
  match t with
  | [] => 0
  | ev :: t' => delta ev + in_flight t'
  end.

(** A trace in which the listings follow one another: none is in flight
    at its end, and at most one at any point of it. *)
Definition calm (t : trace) : Prop :=
  in_flight t = 0%Z /\ forall n, (0 <= in_flight (firstn n t) <= 1)%Z.

(** A listing as it would run against a client whose call is awaited: the
    task suspends between the request and the answer. The repository has
    no such code; the definition serves to check the loop on tasks that
    do suspend. *)
Definition awaited_listing (bucket : string) : asyncio.coroutine unit :=
  let a := kwargs [("bucket", PStr bucket)] in
  asyncio.Do (Request "list_objects" a)
    (asyncio.Suspend (asyncio.Do (Response "list_objects" a) (asyncio.Return (inr tt)))).

(** The characters of base64 text: between ["+"] and ["z"], the backslash
    excepted. *)
Definition plain (x : byte) : bool :=
  Py.in_range 43 122 x && negb (Byte.to_N x =? 92)%N.

(** ** [server.py]: the tool catalogue *)

(** A JSON value of an input schema. *)
Local Unset Elimination Schemes.
Inductive json :=
| JString (s : string)
| JArray (items : list json)
| JObject (fields : list (string * json)).
Local Set Elimination Schemes.

Module Tool.
(** [list_tools] passes the three fields. *)
Record t := { name : string; description : string; inputSchema : json }.
End Tool.

Definition schema_property (type description : string) : json :=
  JObject [("type", JString type); ("description", JString description)].

Definition list_tools : M (list Tool.t) :=
  ret
    [ {| Tool.name := "ListBuckets";
         Tool.description :=
           "Returns a list of all buckets owned by the authenticated sender of the request.";
         Tool.inputSchema :=
           JObject [("type", JString "object");
                    ("properties", JObject []);
                    ("required", JArray [])] |};
      {| Tool.name := "ListObjectsV2";
         Tool.description :=
           "Returns some or all (up to 1,000) of the objects in a bucket with each request.";
         Tool.inputSchema :=
           JObject
             [("type", JString "object");
              ("properties",
               JObject
                 [("Bucket", schema_property "string" "bucket name");
                  ("MaxKeys",
                   schema_property "integer"
                     "Sets the maximum number of keys returned in the response.");
                  ("Prefix",
                   schema_property "string"
                     "Limits the response to keys that begin with the specified prefix.");
                  ("StartAfter",
                   schema_property "string"
                     "StartAfter is where you want Amazon S3 to start listing from.")]);
              ("required", JArray [JString "Bucket"])] |};
      {| Tool.name := "GetObject";
         Tool.description := "Retrieves an object from TOS";
         Tool.inputSchema :=
           JObject
             [("type", JString "object");
              ("properties",
               JObject
                 [("Bucket", schema_property "string" "bucket name");
                  ("Key",
                   schema_property "string"
                     "Key of the object to get. Length Constraints: Minimum length of 1.");
                  ("Range",
                   schema_property "string"
                     "Downloads the specified byte range of an object.");
                  ("VersionId",
                   schema_property "string"
                     "Version ID used to reference a specific version of the object.")]);
              ("required", JArray [JString "Bucket"; JString "Key"])] |} ].

(** The parameters a schema declares and the ones it requires. *)
Definition schema_field (schema : json) (field : string) : option json :=
  match schema with
  | JObject fields => dict_get fields field
  | _ => None
  end.

Definition declared_parameters (schema : json) : list string :=
  match schema_field schema "properties" with
  | Some (JObject fields) => map fst fields
  | _ => []
  end.

Definition required_parameters (schema : json) : list string :=
  match schema_field schema "required" with
  | Some (JArray items) =>
      flat_map (fun j => match j with JString s => [s] | _ => [] end) items
  | _ => []
  end.

(** ** Notions the properties below are stated with *)

(** The number of occurrences of a character. *)
Fixpoint count_char (c : ascii) (s : string) : nat :=
  match s with
  | EmptyString => 0
  | String d s' => (if (d =? c)%char then 1 else 0) + count_char c s'
  end.

(** The value of the last pair of [items] whose lower-cased key is [k]. *)
Definition last_value (items : list (string * string)) (k : string) : option string :=
  fold_left (fun found kv => if (Py.lower (fst kv) =? k)%string then Some (snd kv) else found)
            items None.

(** The resource [list_resources] makes of an object of a bucket. *)
Definition resource_of (bucket : ListedBucket.t) (obj : ListedObject.t) : Resource.t :=
  {| Resource.uri := "tos://" ++ ListedBucket.name bucket ++ "/" ++ ListedObject.key obj;
     Resource.name := ListedObject.key obj;
     Resource.mimeType :=
       if TosResource.is_text_file (ListedObject.key obj)
       then "text/plain" else "application/octet-stream" |}.

(** The one request [list_objects] sends for a bucket. *)
Definition listing_request (bucket prefix : string) (marker : option string)
  : string * call_args :=
  ("list_objects",
   kwargs [("bucket", PStr bucket);
           ("prefix", PStr prefix);
           ("marker", match marker with Some m => PStr m | None => PNone end);
           ("max_keys", PInt 1000)]).

(** The records written with [logger.error] in a trace. *)
Fixpoint logged (t : trace) : list (string * string) :=
  match t with
  | [] => []
  | Log level msg :: t' => (level, msg) :: logged t'
  | _ :: t' => logged t'
  end.

(** A storage service whose objects come in two chunks and carry the same
    header twice, in two spellings. *)
Definition chunked_output : GetObjectOutput.t :=
  {| GetObjectOutput.content_type := Some "text/plain";
     GetObjectOutput.content :=
       {| StreamBody.data := [list_byte_of_string "he"; list_byte_of_string "llo"];
          StreamBody.items := [("ETag", "1"); ("Content-Length", "5"); ("etag", "2")] |} |}.

Definition chunked : TosResource.t :=
  {| TosResource.client :=
       {| Client.list_buckets := inr {| ListBucketsOutput.buckets := [bucket_named "a"] |};
          Client.list_objects := fun _ =>
            inr {| ListObjectsOutput.contents := [object_named "dir/n.txt"; object_named "k"];
                   ListObjectsOutput.text := "<ListObjectsOutput>" |};
          Client.get_object := fun _ => inr chunked_output |};
     TosResource.max_buckets := 5;
     TosResource.configured_buckets := ["a"] |}.

(** The adapter [self] with another allow-list. *)
Definition with_allow_list (L : list string) (self : TosResource.t) : TosResource.t :=
  {| TosResource.client := TosResource.client self;
     TosResource.max_buckets := TosResource.max_buckets self;
     TosResource.configured_buckets := L |}.

(** The tools [list_tools] returns. *)
Definition listed_tools : list Tool.t :=
  match result list_tools with
  | inr tools => tools
  | inl _ => []
  end.

(** A decoder for the output of [b64encode], to show that the encoding
    loses nothing: the position of a character in the alphabet, and the
    bytes of each group of four characters. *)
Fixpoint index_of (a : ascii) (l : list ascii) : N :=
  match l with
  | [] => 0
  | b :: l' => if (a =? b)%char then 0 else N.succ (index_of a l')
  end.

Definition b64_index (c : byte) : N := index_of (ascii_of_byte c) Py.b64_alphabet.

Definition byte_of (n : N) : byte :=
  match Byte.of_N n with
  | Some b => b
  | None => "000"%byte
  end.

Fixpoint b64decode (b : bytes) : bytes :=
  match b with
  | c0 :: c1 :: c2 :: c3 :: rest =>
      let b0 := byte_of (N.lor (N.shiftl (b64_index c0) 2) (N.shiftr (b64_index c1) 4)) in
      let b1 :=
        byte_of (N.lor (N.shiftl (N.land (b64_index c1) 15) 4) (N.shiftr (b64_index c2) 2)) in
      let b2 := byte_of (N.lor (N.shiftl (N.land (b64_index c2) 3) 6) (b64_index c3)) in
      if Byte.eqb c2 Py.b64_pad then [b0]
      else if Byte.eqb c3 Py.b64_pad then [b0; b1]
      else b0 :: b1 :: b2 :: b64decode rest
  | _ => []
  end.

Definition all_bytes : list byte := map (fun n => byte_of (N.of_nat n)) (seq 0 256).

(** * Properties *)

(** ** Strings *)

Lemma endswith_spec (s suffix : string) :
  Py.endswith s suffix = true <-> exists p, s = (p ++ suffix)%string.
Proof.
  induction s as [|c s IH]; cbn [Py.endswith];
    rewrite orb_true_iff, String.eqb_eq.
  - split.
    + intros [<- | H]; [now exists EmptyString | discriminate].
    + intros [[|d p] H]; simpl in H; [now left | discriminate].
  - rewrite IH. split.
    + intros [<- | [p ->]]; [now exists EmptyString | now exists (String c p)].
    + intros [[|d p] H]; simpl in H.
      * now left.
      * injection H as <- ->. right. now exists p.
Qed.

Lemma split_without_separator (sep : ascii) (m : option nat) (s : string) :
  Py.contains_char sep s = false -> Py.split sep m s = [s].
Proof.
  induction s as [|c s IH]; simpl; [reflexivity|].
  intros H. apply orb_false_iff in H as [Hc Hs].
  rewrite Hc, (IH Hs). reflexivity.
Qed.

Lemma existsb_eqb_allowed (L : list string) (b : ListedBucket.t) :
  existsb (String.eqb (ListedBucket.name b)) L = allowed L b.
Proof.
  unfold allowed. destruct (in_dec string_dec (ListedBucket.name b) L) as [Hin | Hout].
  - apply existsb_exists. exists (ListedBucket.name b). split; [assumption | apply String.eqb_refl].
  - apply not_true_is_false. intros H. apply existsb_exists in H as [x [Hx Heq]].
    apply String.eqb_eq in Heq. now subst x.
Qed.

(** ** The adapter *)

(** C3. When the storage service answers the bucket listing with the
    sequence [B], [list_buckets] returns [B] itself under an empty
    allow-list, and otherwise the buckets of [B] whose name is in the
    allow-list, in the order of [B]. *)
Theorem list_buckets_filters_by_allow_list (self : TosResource.t) (B : list ListedBucket.t) :
  Client.list_buckets (TosResource.client self) = inr {| ListBucketsOutput.buckets := B |} ->
  result (TosResource.list_buckets self)
  = inr (match TosResource.configured_buckets self with
         | [] => B
         | L => filter (allowed L) B
         end).
Proof.
  intros HB. unfold TosResource.list_buckets, call. rewrite HB.
  destruct (TosResource.configured_buckets self) as [|l L]; [reflexivity|].
  cbn. f_equal. apply filter_ext. intros b. apply (existsb_eqb_allowed (l :: L)).
Qed.

Lemma list_buckets_filters_by_allow_list_witness :
  result (TosResource.list_buckets (demo ["b"; "zz"])) = inr [bucket_named "b"].
Proof.
  exact (list_buckets_filters_by_allow_list (demo ["b"; "zz"])
           [bucket_named "a"; bucket_named "b"] eq_refl).
Defined.

(** The allow-list as [__init__] loads it from [TOS_BUCKETS]. *)
Example configured_buckets_from_environment :
  TosResource._get_configured_buckets
    (fun v => if (v =? "TOS_BUCKETS")%string then Some "a, b ,c" else None) = ["a"; "b"; "c"]
  /\ TosResource._get_configured_buckets
       (fun v => if (v =? "TOS_BUCKETS")%string then Some "" else None) = []
  /\ TosResource._get_configured_buckets (fun _ => None) = [].
Proof. repeat split; reflexivity. Qed.

(** C4. [is_text_file key] holds exactly when the lower-cased key ends
    with one of the six extensions; ["a.TXT"] is a text file, ["a.bin"] and
    ["noext"] are not. *)
Theorem is_text_file_iff_text_extension :
  (forall key : string,
      TosResource.is_text_file key = true
      <-> exists ext,
          In ext [".txt"; ".log"; ".csv"; ".json"; ".xml"; ".md"]
          /\ exists p, Py.lower key = (p ++ ext)%string)
  /\ TosResource.is_text_file "a.TXT" = true
  /\ TosResource.is_text_file "a.bin" = false
  /\ TosResource.is_text_file "noext" = false.
Proof.
  split; [|repeat split; reflexivity].
  intros key. unfold TosResource.is_text_file. rewrite existsb_exists.
  split; intros [ext [Hin H]]; exists ext; (split; [exact Hin|]); now apply endswith_spec.
Qed.

(** C6. When the storage service answers the object fetch with an
    exception [e], [get_object] raises the not-found [ValueError] if [e] is
    a [TosServerError] with status code 404, and raises [e] itself, with
    its message, in every other case. *)
Theorem get_object_backend_error (self : TosResource.t) (bucket key : string) (e : exn) :
  Client.get_object (TosResource.client self) (args [PStr bucket; PStr key]) = inl e ->
  result (TosResource.get_object self bucket key)
  = inl (match e with
         | TosServerError 404 _ _ => ValueError ("Object " ++ key ++ " not found in " ++ bucket)
         | _ => e
         end).
Proof.
  intros He. unfold TosResource.get_object, call. rewrite He.
  destruct e as [| | | code msg text |]; try reflexivity.
  cbn. destruct (Z.eqb_spec code 404) as [-> | Hne]; [reflexivity|].
  cbn. destruct code as [|p|p]; try reflexivity.
  repeat (destruct p as [p|p|]; try reflexivity). congruence.
Qed.

Lemma get_object_backend_error_witness :
  result (TosResource.get_object (failing (TosServerError 404 "NoSuchKey" "not found")) "b" "k")
  = inl (ValueError "Object k not found in b")
  /\ result (TosResource.get_object (failing (TosServerError 503 "SlowDown" "busy")) "b" "k")
     = inl (TosServerError 503 "SlowDown" "busy").
Proof.
  split.
  - exact (get_object_backend_error
             (failing (TosServerError 404 "NoSuchKey" "not found")) "b" "k" _ eq_refl).
  - exact (get_object_backend_error
             (failing (TosServerError 503 "SlowDown" "busy")) "b" "k" _ eq_refl).
Defined.

(** ** [read_resource] *)

(** C5. On a URI that does not start with ["tos://"], [read_resource]
    raises [ValueError("Invalid TOS URI format")] and sends no request to
    the storage service. *)
Theorem read_resource_rejects_foreign_scheme (tos_resource : TosResource.t) (uri : string) :
  Py.startswith uri "tos://" = false ->
  result (server.read_resource tos_resource uri) = inl (ValueError "Invalid TOS URI format")
  /\ requests (events (server.read_resource tos_resource uri)) = [].
Proof.
  intros H. unfold server.read_resource. rewrite H. split; reflexivity.
Qed.

Lemma read_resource_rejects_foreign_scheme_witness :
  result (server.read_resource (demo []) "http://b/k") = inl (ValueError "Invalid TOS URI format")
  /\ requests (events (server.read_resource (demo []) "http://b/k")) = [].
Proof.
  exact (read_resource_rejects_foreign_scheme (demo []) "http://b/k" eq_refl).
Defined.

(** C10. On a URI ["tos://<rest>"] whose [<rest>] has no ["/"], the
    unpacking of the split raises [ValueError], which [read_resource] lets
    through, and no request is sent to the storage service. *)
Theorem read_resource_bucket_without_key (tos_resource : TosResource.t) (rest : string) :
  Py.contains_char "/" rest = false ->
  result (server.read_resource tos_resource ("tos://" ++ rest))
  = inl (ValueError "not enough values to unpack (expected 2, got 1)")
  /\ requests (events (server.read_resource tos_resource ("tos://" ++ rest))) = [].
Proof.
  intros H. unfold server.read_resource.
  change (Py.startswith ("tos://" ++ rest) "tos://") with (Py.startswith rest "").
  change (Py.slice_from 6 ("tos://" ++ rest)) with rest.
  rewrite (split_without_separator "/" (Some 1%nat) rest H).
  unfold Py.startswith. destruct rest; split; reflexivity.
Qed.

Lemma read_resource_bucket_without_key_witness :
  result (server.read_resource (demo []) "tos://bucketonly")
  = inl (ValueError "not enough values to unpack (expected 2, got 1)")
  /\ requests (events (server.read_resource (demo []) "tos://bucketonly")) = [].
Proof.
  exact (read_resource_bucket_without_key (demo []) "bucketonly" eq_refl).
Defined.

(** *** What [b64encode] produces *)

Lemma b64_char_plain (n : N) : plain (Py.b64_char n) = true.
Proof.
  unfold Py.b64_char.
  assert (Hall : forallb (fun a => plain (byte_of_ascii a)) Py.b64_alphabet = true)
    by reflexivity.
  rewrite forallb_forall in Hall.
  destruct (nth_in_or_default (N.to_nat n) Py.b64_alphabet "="%char) as [Hin | ->].
  - now apply Hall.
  - reflexivity.
Qed.

Lemma b64encode_plain (b : bytes) : Forall (fun x => plain x = true) (Py.b64encode b).
Proof.
  assert (H : forall n (b : bytes), (List.length b <= n)%nat ->
                                   Forall (fun x => plain x = true) (Py.b64encode b)).
  { induction n as [|n IH]; intros [|x [|y [|z rest]]] Hlen; simpl in *;
      repeat constructor; try apply b64_char_plain; try lia.
    apply IH. lia. }
  now apply (H (List.length b)).
Qed.

Lemma utf8_scan_ascii (b : bytes) (pos : nat) :
  Forall (fun x => plain x = true) b -> Py.utf8_scan Py.Start pos b = None.
Proof.
  intros H. revert pos. induction H as [|x b Hx _ IH]; intros pos; [reflexivity|].
  cbn [Py.utf8_scan].
  replace (Byte.to_N x <? 128)%N with true; [apply IH|].
  destruct x; try discriminate Hx; reflexivity.
Qed.

Lemma decode_utf8_b64encode (b : bytes) :
  decode_utf8 (Py.b64encode b) = ret (string_of_list_byte (Py.b64encode b)).
Proof.
  unfold decode_utf8. now rewrite (utf8_scan_ascii _ 0 (b64encode_plain b)).
Qed.

Lemma string_of_list_byte_cons (x : byte) (b : bytes) :
  string_of_list_byte (x :: b) = String (ascii_of_byte x) (string_of_list_byte b).
Proof. reflexivity. Qed.

Lemma plain_no_quote (b : bytes) :
  Forall (fun x => plain x = true) b ->
  Py.contains_char Py.squote (string_of_list_byte b) = false.
Proof.
  induction 1 as [|x b Hx _ IH]; [reflexivity|].
  rewrite string_of_list_byte_cons. cbn [Py.contains_char]. rewrite IH, orb_false_r.
  destruct x; try discriminate Hx; reflexivity.
Qed.

Lemma plain_repr_body (b : bytes) :
  Forall (fun x => plain x = true) b ->
  Py.repr_body true Py.squote (string_of_list_byte b) = string_of_list_byte b.
Proof.
  induction 1 as [|x b Hx _ IH]; [reflexivity|].
  rewrite string_of_list_byte_cons. cbn [Py.repr_body]. rewrite IH.
  replace (Py.repr_char true Py.squote (ascii_of_byte x))
    with (String (ascii_of_byte x) EmptyString); [reflexivity|].
  destruct x; try discriminate Hx; reflexivity.
Qed.

Lemma repr_bytes_plain (b : bytes) :
  Forall (fun x => plain x = true) b ->
  Py.repr_bytes b = ("b'" ++ string_of_list_byte b ++ "'")%string.
Proof.
  intros H. unfold Py.repr_bytes, Py.repr_quote.
  rewrite (plain_no_quote b H). cbn [andb]. cbv zeta.
  rewrite (plain_repr_body b H). reflexivity.
Qed.

Lemma startswith_tos (s : string) : Py.startswith ("tos://" ++ s) "tos://" = true.
Proof. unfold Py.startswith. now destruct s. Qed.

Lemma split_exhausted (sep : ascii) (s : string) : Py.split sep (Some 0%nat) s = [s].
Proof.
  induction s as [|c s IH]; [reflexivity|].
  cbn [Py.split]. rewrite IH. now destruct (c =? sep)%char.
Qed.

Lemma split_at_first_separator (sep : ascii) (b k : string) :
  Py.contains_char sep b = false ->
  Py.split sep (Some 1%nat) (b ++ String sep k) = [b; k].
Proof.
  induction b as [|c b IH]; intros H.
  - cbn [append Py.split]. now rewrite Ascii.eqb_refl, split_exhausted.
  - cbn in H. apply orb_false_iff in H as [Hc Hb].
    cbn [append Py.split]. now rewrite Hc, (IH Hb).
Qed.

Lemma fold_left_app_concat {A} (l : list (list A)) (acc : list A) :
  fold_left (fun content chunk => content ++ chunk) l acc = acc ++ List.concat l.
Proof.
  revert acc. induction l as [|c l IH]; intros acc; cbn.
  - now rewrite app_nil_r.
  - now rewrite IH, app_assoc.
Qed.

Lemma get_object_success
    (self : TosResource.t) (bucket key : string) (response : GetObjectOutput.t) :
  Client.get_object (TosResource.client self) (args [PStr bucket; PStr key]) = inr response ->
  TosResource.get_object self bucket key
  = ([Request "get_object" (args [PStr bucket; PStr key]);
      Response "get_object" (args [PStr bucket; PStr key])],
     inr {| TosResource.content_type := GetObjectOutput.content_type response;
            TosResource.content := StreamBody.read (GetObjectOutput.content response);
            TosResource.metadata :=
              fold_left (fun d kv => dict_set d (Py.lower (fst kv)) (snd kv))
                        (StreamBody.items (GetObjectOutput.content response)) [] |}).
Proof.
  intros Hget. unfold TosResource.get_object, call. rewrite Hget.
  cbn. now rewrite fold_left_app_concat.
Qed.

(** What [read_resource] returns for an object the storage service holds:
    the base64 text under a text key, and the [bytes] literal of the base64
    text, with its [b'...'] around it, under any other key. *)
Lemma read_resource_on_stored_object
    (tos_resource : TosResource.t) (bucket key : string) (response : GetObjectOutput.t) :
  Py.contains_char "/" bucket = false ->
  Client.get_object (TosResource.client tos_resource) (args [PStr bucket; PStr key])
  = inr response ->
  let encoded :=
    string_of_list_byte
      (Py.b64encode (StreamBody.read (GetObjectOutput.content response))) in
  result (server.read_resource tos_resource ("tos://" ++ bucket ++ "/" ++ key))
  = inr (if TosResource.is_text_file key then encoded
         else ("b'" ++ encoded ++ "'")%string).
Proof.
  intros Hb Hget encoded. unfold server.read_resource.
  rewrite startswith_tos.
  change (Py.slice_from 6 ("tos://" ++ bucket ++ "/" ++ key))
    with (bucket ++ String "/" key)%string.
  rewrite (split_at_first_separator "/" bucket key Hb).
  cbn [negb unpack2]. unfold bind at 1. cbn [ret].
  rewrite (get_object_success tos_resource bucket key response Hget).
  unfold bind at 1. cbn [TosResource.content TosResource.content_type].
  destruct (TosResource.is_text_file key).
  - rewrite decode_utf8_b64encode. reflexivity.
  - rewrite (repr_bytes_plain _ (b64encode_plain _)). reflexivity.
Qed.

(** C2. The storage service holds the two bytes of ["hi"] under the key
    ["k"], which is not a text key. [read_resource("tos://b/k")] returns
    the seven characters [b'aGk='], not the base64 text ["aGk="] that it
    returns under the text key ["k.txt"]. *)
Theorem read_resource_binary_key_returns_bytes_literal :
  StreamBody.read
    {| StreamBody.data := [list_byte_of_string "h"; list_byte_of_string "i"];
       StreamBody.items := [("Content-Length", "2")] |} = list_byte_of_string "hi"
  /\ TosResource.is_text_file "k" = false
  /\ result (server.read_resource (demo []) "tos://b/k") = inr "b'aGk='"
  /\ result (server.read_resource (demo []) "tos://b/k.txt") = inr "aGk=".
Proof. repeat split; reflexivity. Qed.

(** ** The monad *)

Lemma events_bind {A B} (m : M A) (k : A -> M B) :
  events (bind m k)
  = events m ++ match result m with inl _ => [] | inr a => events (k a) end.
Proof.
  destruct m as [t [e | a]]; cbn.
  - now rewrite app_nil_r.
  - now destruct (k a).
Qed.

Lemma result_bind {A B} (m : M A) (k : A -> M B) :
  result (bind m k) = match result m with inl e => inl e | inr a => result (k a) end.
Proof. destruct m as [t [e | a]]; cbn; [reflexivity | now destruct (k a)]. Qed.

Lemma events_try_except {A} (m : M A) (clauses : list (clause A)) :
  events (try_except m clauses)
  = events m ++ match result m with inl e => events (handle clauses e) | inr _ => [] end.
Proof.
  destruct m as [t [e | a]]; cbn.
  - now destruct (handle clauses e).
  - now rewrite app_nil_r.
Qed.

Lemma result_try_except {A} (m : M A) (clauses : list (clause A)) :
  result (try_except m clauses)
  = match result m with inl e => result (handle clauses e) | inr a => inr a end.
Proof. destruct m as [t [e | a]]; cbn; [now destruct (handle clauses e) | reflexivity]. Qed.

(** ** The event loop on coroutines that do not suspend *)

Lemma resume_steps {A} (t : trace) (r : exn + A) :
  asyncio.resume (asyncio.steps t r) = (t, inl r).
Proof. induction t as [|ev t IH]; cbn; [reflexivity | now rewrite IH]. Qed.

Lemma suspensions_steps {A} (t : trace) (r : exn + A) :
  asyncio.suspensions (asyncio.steps t r) = 0%nat.
Proof. induction t as [|ev t IH]; cbn; auto. Qed.

Lemma turns_async_def {A} (ms : list (M A)) :
  asyncio.turns (map asyncio.async_def ms) = List.length ms.
Proof.
  unfold asyncio.turns.
  induction ms as [|m ms IH]; cbn [map fold_right List.length]; [reflexivity|].
  rewrite IH. unfold asyncio.async_def. now rewrite suspensions_steps.
Qed.

Lemma run_async_def {A} (ms : list (M A)) (i fuel : nat) :
  (List.length ms <= fuel)%nat ->
  asyncio.run fuel (combine (seq i (List.length ms)) (map asyncio.async_def ms))
  = (flat_map events ms, combine (seq i (List.length ms)) (map result ms)).
Proof.
  revert i fuel. induction ms as [|m ms IH]; intros i fuel Hf.
  - now destruct fuel.
  - destruct fuel as [|fuel]; [cbn in Hf; lia|].
    cbn [List.length seq map combine asyncio.run flat_map].
    unfold asyncio.async_def at 1. rewrite resume_steps.
    rewrite (IH (S i) fuel) by (cbn in Hf; lia).
    reflexivity.
Qed.

Lemma first_exception_combine {A} (rs : list (exn + A)) (i : nat) :
  asyncio.first_exception (combine (seq i (List.length rs)) rs) = first_error rs.
Proof.
  revert i. induction rs as [|[e | a] rs IH]; intros i; cbn; auto.
Qed.

(** [gather] on coroutines that do not suspend runs them one after the
    other, each to its end, and raises the first exception among them. *)
Lemma gather_async_def {A} (ms : list (M A)) :
  events (asyncio.gather (map asyncio.async_def ms)) = flat_map events ms
  /\ match first_error (map result ms) with
     | Some e => result (asyncio.gather (map asyncio.async_def ms)) = inl e
     | None => exists l, result (asyncio.gather (map asyncio.async_def ms)) = inr l
     end.
Proof.
  unfold asyncio.gather. rewrite turns_async_def, length_map.
  rewrite (run_async_def ms 0 (List.length ms)) by lia.
  pose proof (first_exception_combine (map result ms) 0) as Hfirst.
  rewrite length_map in Hfirst. rewrite Hfirst.
  destruct (first_error (map result ms)); cbn; eauto.
Qed.

(** *** The loop in general: [turns] is enough fuel *)

Lemma resume_suspended {A} (c k : asyncio.coroutine A) (t : trace) :
  asyncio.resume c = (t, inr k) -> asyncio.suspensions c = S (asyncio.suspensions k).
Proof.
  revert t. induction c as [r | ev c IH | c IH]; intros t H; cbn in *.
  - discriminate.
  - destruct (asyncio.resume c) as [t' o]. injection H as <- ->. now apply (IH t').
  - now injection H as <- ->.
Qed.

Lemma turns_app {A} (l1 l2 : list (asyncio.coroutine A)) :
  asyncio.turns (l1 ++ l2) = (asyncio.turns l1 + asyncio.turns l2)%nat.
Proof.
  unfold asyncio.turns. induction l1 as [|c l1 IH]; cbn [app fold_right]; [reflexivity|].
  rewrite IH. lia.
Qed.

(** With [turns] turns every task of the queue runs to its end. *)
Lemma run_completes {A} (fuel : nat) (ready : list (nat * asyncio.coroutine A)) :
  (asyncio.turns (map snd ready) <= fuel)%nat ->
  List.length (snd (asyncio.run fuel ready)) = List.length ready.
Proof.
  revert ready. induction fuel as [|fuel IH]; intros [|[i c] rest] Hf;
    try reflexivity; try (cbn in Hf; lia).
  cbn [asyncio.run]. destruct (asyncio.resume c) as [t [r | k]] eqn:Hc.
  - specialize (IH rest). destruct (asyncio.run fuel rest) as [t' done].
    cbn [snd List.length] in IH |- *. f_equal. apply IH.
    cbn [map snd] in Hf. unfold asyncio.turns in *. cbn [fold_right] in Hf. lia.
  - specialize (IH (rest ++ [(i, k)])).
    destruct (asyncio.run fuel (rest ++ [(i, k)])) as [t' done].
    cbn [snd] in IH |- *. rewrite IH; [rewrite length_app; cbn; lia|].
    rewrite map_app, turns_app. cbn [map snd] in *.
    apply resume_suspended in Hc.
    unfold asyncio.turns in *. cbn [fold_right] in *. lia.
Qed.

(** The loop does interleave tasks that suspend: four awaited listings
    under the one semaphore of [list_resources] are all in flight at once. *)
Example gather_interleaves_suspended_tasks :
  in_flight
    (firstn 5 (events (asyncio.async_with 3
                         (asyncio.gather (map awaited_listing ["a"; "b"; "c"; "d"])))))
  = 4%Z.
Proof. reflexivity. Qed.

Lemma flat_map_map {A B C} (f : B -> list C) (g : A -> B) (l : list A) :
  flat_map f (map g l) = flat_map (fun x => f (g x)) l.
Proof. induction l as [|x l IH]; cbn; [reflexivity | now rewrite IH]. Qed.

Lemma events_async_with {A} (value : nat) (m : M A) :
  events (asyncio.async_with value m) = SemAcquire value :: events m ++ [SemRelease].
Proof. unfold asyncio.async_with. destruct m as [t [e | a]]; reflexivity. Qed.

Lemma result_async_with {A} (value : nat) (m : M A) :
  result (asyncio.async_with value m) = result m.
Proof. unfold asyncio.async_with. destruct m as [t [e | a]]; reflexivity. Qed.

(** ** [list_resources] *)

(** How [list_resources] ends: with the exception of the bucket
    enumeration, or with the first exception among the bucket listings, or
    with the resources appended so far. *)
Lemma list_resources_result (tos_resource : TosResource.t) :
  result (server.list_resources tos_resource)
  = match result (TosResource.list_buckets tos_resource) with
    | inl e => inl e
    | inr B =>
        match first_error
                (map (fun b => result (server.process_bucket_body tos_resource b)) B) with
        | Some e => inl e
        | None =>
            inr (server.appended
                   (events (TosResource.list_buckets tos_resource)
                    ++ SemAcquire 3
                    :: flat_map
                         (fun b => events (server.process_bucket_body tos_resource b)) B
                    ++ [SemRelease]))
        end
    end.
Proof.
  unfold server.list_resources.
  rewrite result_bind, result_try_except, result_bind.
  rewrite events_try_except, events_bind, result_bind.
  destruct (result (TosResource.list_buckets tos_resource)) as [e | B]; [reflexivity|].
  rewrite result_bind, result_async_with, events_bind, events_async_with, result_async_with.
  unfold server.process_bucket. rewrite <- map_map.
  destruct (gather_async_def (map (server.process_bucket_body tos_resource) B))
    as [Hev Hres].
  rewrite Hev, flat_map_map.
  rewrite (map_map (server.process_bucket_body tos_resource) result) in Hres.
  destruct (first_error _) as [e|].
  - rewrite Hres. reflexivity.
  - destruct Hres as [l ->]. cbn [result events ret snd fst].
    now rewrite !app_nil_r.
Qed.

Lemma result_for_each_emit {A} (l : list A) (f : A -> event) :
  result (for_each l (fun x => emit (f x))) = inr tt.
Proof.
  induction l as [|x l IH]; [reflexivity|].
  cbn [for_each]. rewrite result_bind. exact IH.
Qed.

(** A bucket's task raises exactly when the listing of its objects does. *)
Lemma listing_result (tos_resource : TosResource.t) (b : ListedBucket.t) :
  result (server.process_bucket_body tos_resource b)
  = match result (TosResource.list_objects tos_resource (ListedBucket.name b) "" None) with
    | inl e => inl e
    | inr _ => inr tt
    end.
Proof.
  unfold server.process_bucket_body. rewrite result_bind.
  destruct (result _) as [e | objects]; [reflexivity|].
  apply result_for_each_emit.
Qed.

Lemma first_error_some {A B} (f : A -> exn + B) (l : list A) (x : A) (e : exn) :
  In x l -> f x = inl e ->
  exists x' e', In x' l /\ f x' = inl e' /\ first_error (map f l) = Some e'.
Proof.
  induction l as [|y l IH]; intros Hin Hx; [contradiction|].
  cbn [map first_error]. destruct (f y) as [e0 | v] eqn:Hy.
  - exists y, e0. repeat split; [now left | assumption].
  - destruct Hin as [-> | Hin]; [congruence|].
    destruct (IH Hin Hx) as (x' & e' & Hin' & Hx' & Hfirst).
    exists x', e'. repeat split; [now right | assumption | assumption].
Qed.

(** C9. If the bucket enumeration raises, [list_resources] raises the same
    exception; if the object listing of any enumerated bucket raises,
    [list_resources] raises the exception of such a listing. In both cases
    the caller gets an exception and no list of resources. *)
Theorem list_resources_all_or_nothing (tos_resource : TosResource.t) :
  (forall e,
      result (TosResource.list_buckets tos_resource) = inl e ->
      result (server.list_resources tos_resource) = inl e)
  /\ (forall B b e,
        result (TosResource.list_buckets tos_resource) = inr B ->
        In b B ->
        result (TosResource.list_objects tos_resource (ListedBucket.name b) "" None) = inl e ->
        exists b' e',
          In b' B
          /\ result (TosResource.list_objects tos_resource (ListedBucket.name b') "" None)
             = inl e'
          /\ result (server.list_resources tos_resource) = inl e').
Proof.
  split.
  - intros e He. now rewrite list_resources_result, He.
  - intros B b e HB Hin Hb.
    rewrite list_resources_result, HB.
    assert (Hfail : result (server.process_bucket_body tos_resource b) = inl e)
      by now rewrite listing_result, Hb.
    destruct (first_error_some
                (fun b => result (server.process_bucket_body tos_resource b)) B b e Hin Hfail)
      as (b' & e' & Hin' & Hb' & Hfirst).
    exists b', e'. split; [exact Hin'|]. split; [|now rewrite Hfirst].
    cbv beta in Hb'. rewrite listing_result in Hb'. revert Hb'.
    destruct (result (TosResource.list_objects tos_resource (ListedBucket.name b') "" None))
      as [e0 | objects];
      cbn; [intros [= ->] | discriminate].
    reflexivity.
Qed.

Lemma list_resources_all_or_nothing_witness :
  result (server.list_resources (failing (OtherError "ConnectionError" "unreachable")))
  = inl (OtherError "ConnectionError" "unreachable")
  /\ exists b' e',
      In b' [bucket_named "a"; bucket_named "b"; bucket_named "c"; bucket_named "d"]
      /\ result (TosResource.list_objects flaky (ListedBucket.name b') "" None) = inl e'
      /\ result (server.list_resources flaky) = inl e'.
Proof.
  split.
  - exact (proj1 (list_resources_all_or_nothing
                    (failing (OtherError "ConnectionError" "unreachable"))) _ eq_refl).
  - exact (proj2 (list_resources_all_or_nothing flaky)
             [bucket_named "a"; bucket_named "b"; bucket_named "c"; bucket_named "d"]
             (bucket_named "b")
             (TosServerError 500 "InternalError" "internal error")
             eq_refl (or_intror (or_introl eq_refl)) eq_refl).
Defined.

(** ** Listings in flight *)

Lemma in_flight_app (t1 t2 : trace) : in_flight (t1 ++ t2) = (in_flight t1 + in_flight t2)%Z.
Proof. induction t1 as [|ev t1 IH]; cbn [app in_flight]; [reflexivity | rewrite IH; lia]. Qed.

Lemma calm_nil : calm [].
Proof. split; [reflexivity | intros n; rewrite firstn_nil; cbn; lia]. Qed.

Lemma calm_app (t1 t2 : trace) : calm t1 -> calm t2 -> calm (t1 ++ t2).
Proof.
  intros [H1 P1] [H2 P2]. split.
  - rewrite in_flight_app. lia.
  - intros n. rewrite firstn_app, in_flight_app.
    destruct (Nat.le_gt_cases n (List.length t1)) as [Hle | Hgt].
    + replace (n - List.length t1)%nat with 0%nat by lia.
      cbn [firstn in_flight]. specialize (P1 n). lia.
    + rewrite firstn_all2 by lia. specialize (P2 (n - List.length t1)%nat). lia.
Qed.

Lemma calm_quiet (ev : event) : delta ev = 0%Z -> calm [ev].
Proof.
  intros H. split; [cbn; lia|].
  intros [|[|n]]; cbn; lia.
Qed.

Lemma calm_call (method : string) (a : call_args) :
  calm [Request method a; Response method a].
Proof.
  split; [cbn; destruct (method =? "list_objects")%string; lia|].
  intros [|[|[|n]]]; cbn; destruct (method =? "list_objects")%string; lia.
Qed.

Lemma calm_flat_map {A} (f : A -> trace) (l : list A) :
  (forall x, calm (f x)) -> calm (flat_map f l).
Proof.
  intros H. induction l as [|x l IH]; [apply calm_nil|].
  cbn [flat_map]. now apply calm_app.
Qed.

Lemma calm_bind {A B} (m : M A) (k : A -> M B) :
  calm (events m) -> (forall a, calm (events (k a))) -> calm (events (bind m k)).
Proof.
  intros Hm Hk. rewrite events_bind. apply calm_app; [assumption|].
  destruct (result m); [apply calm_nil | apply Hk].
Qed.

Lemma calm_try_except {A} (m : M A) (clauses : list (clause A)) :
  calm (events m) -> (forall e, calm (events (handle clauses e))) ->
  calm (events (try_except m clauses)).
Proof.
  intros Hm Hh. rewrite events_try_except. apply calm_app; [assumption|].
  destruct (result m); [apply Hh | apply calm_nil].
Qed.

Lemma calm_log_and_raise {A} (test : exn -> bool) (msg : exn -> string) (e : exn) :
  calm (events (handle [(test, fun e => emit (Log "error" (msg e)) ;; @raise A e)] e)).
Proof.
  cbn [handle]. destruct (test e); [|apply calm_nil].
  now apply (calm_quiet (Log "error" (msg e))).
Qed.

Lemma calm_client_call {A} (method : string) (a : call_args) (answer : exn + A) :
  calm (events (call method a answer)).
Proof.
  unfold call. destruct answer; apply calm_call.
Qed.

Lemma calm_list_buckets (self : TosResource.t) : calm (events (TosResource.list_buckets self)).
Proof.
  unfold TosResource.list_buckets. apply calm_try_except.
  - apply calm_bind; [apply calm_client_call|].
    intros response. destruct (TosResource.configured_buckets self); apply calm_nil.
  - intros e. apply (calm_log_and_raise is_TosServerError
                       (fun e => ("List buckets error: " ++ message_of e)%string)).
Qed.

Lemma calm_list_objects (self : TosResource.t) (bucket prefix : string) (marker : option string) :
  calm (events (TosResource.list_objects self bucket prefix marker)).
Proof.
  unfold TosResource.list_objects. apply calm_try_except.
  - apply calm_bind; [apply calm_client_call | intros response; apply calm_nil].
  - intros e. apply (calm_log_and_raise is_TosServerError
                       (fun e => ("List objects error in " ++ bucket ++ ": "
                                  ++ message_of e)%string)).
Qed.

Lemma calm_for_each_append {A} (l : list A) (f : A -> Resource.t) :
  calm (events (for_each l (fun x => emit (Append (f x))))).
Proof.
  induction l as [|x l IH]; [apply calm_nil|].
  cbn [for_each]. apply calm_bind; [now apply (calm_quiet (Append (f x))) | intros _; exact IH].
Qed.

Lemma calm_process_bucket_body (tos_resource : TosResource.t) (bucket : ListedBucket.t) :
  calm (events (server.process_bucket_body tos_resource bucket)).
Proof.
  unfold server.process_bucket_body. apply calm_bind; [apply calm_list_objects|].
  intros objects. apply calm_for_each_append.
Qed.

Lemma calm_list_resources (tos_resource : TosResource.t) :
  calm (events (server.list_resources tos_resource)).
Proof.
  unfold server.list_resources.
  apply calm_bind; [|intros _; apply calm_nil].
  apply calm_try_except.
  - apply calm_bind; [apply calm_list_buckets|].
    intros B. apply calm_bind; [|intros _; apply calm_nil].
    rewrite events_async_with.
    apply (calm_app [SemAcquire 3]); [now apply calm_quiet|].
    apply calm_app; [|now apply calm_quiet].
    unfold server.process_bucket. rewrite <- map_map.
    rewrite (proj1 (gather_async_def _)), flat_map_map.
    apply calm_flat_map. intros b. apply calm_process_bucket_body.
  - intros e. apply (calm_log_and_raise is_Exception
                       (fun e => ("Resource listing failed: " ++ str_exn e)%string)).
Qed.

(** C8. At every point of an execution of [list_resources], whatever the
    buckets and the answers of the storage service, at most three object
    listings are in flight. (The tasks of [gather] do not suspend, so there
    is never more than one.) *)
Theorem list_resources_at_most_three_listings_in_flight
    (tos_resource : TosResource.t) (n : nat) :
  (in_flight (firstn n (events (server.list_resources tos_resource))) <= 3)%Z.
Proof.
  destruct (calm_list_resources tos_resource) as [_ H]. specialize (H n). lia.
Qed.

(** ** The allow-list *)

Lemma appended_app (t1 t2 : trace) :
  server.appended (t1 ++ t2) = server.appended t1 ++ server.appended t2.
Proof.
  induction t1 as [|ev t1 IH]; [reflexivity|].
  destruct ev; cbn [app server.appended]; rewrite IH; reflexivity.
Qed.

Lemma appended_flat_map {A} (f : A -> trace) (l : list A) :
  server.appended (flat_map f l) = flat_map (fun x => server.appended (f x)) l.
Proof.
  induction l as [|x l IH]; [reflexivity|].
  cbn [flat_map]. now rewrite appended_app, IH.
Qed.

Lemma appended_list_buckets (self : TosResource.t) :
  server.appended (events (TosResource.list_buckets self)) = [].
Proof.
  unfold TosResource.list_buckets, call.
  destruct (Client.list_buckets (TosResource.client self)) as [e | response].
  - destruct e; reflexivity.
  - destruct (TosResource.configured_buckets self); reflexivity.
Qed.

Lemma appended_list_objects (self : TosResource.t) (bucket prefix : string)
    (marker : option string) :
  server.appended (events (TosResource.list_objects self bucket prefix marker)) = [].
Proof.
  unfold TosResource.list_objects, call.
  destruct (Client.list_objects _ _) as [e | response]; [destruct e|]; reflexivity.
Qed.

Lemma appended_for_each {A} (l : list A) (f : A -> Resource.t) :
  server.appended (events (for_each l (fun x => emit (Append (f x))))) = map f l.
Proof.
  induction l as [|x l IH]; [reflexivity|].
  cbn [for_each]. rewrite events_bind, appended_app. cbn [emit result snd]. now rewrite IH.
Qed.

(** The resources a bucket's task appends all carry the name of that
    bucket in their URI. *)
Lemma appended_process_bucket_body
    (tos_resource : TosResource.t) (bucket : ListedBucket.t) (x : Resource.t) :
  In x (server.appended (events (server.process_bucket_body tos_resource bucket))) ->
  exists obj : ListedObject.t,
    Resource.uri x
    = ("tos://" ++ ListedBucket.name bucket ++ "/" ++ ListedObject.key obj)%string.
Proof.
  unfold server.process_bucket_body.
  rewrite events_bind, appended_app, appended_list_objects. cbn [app].
  destruct (result _) as [e | objects]; [contradiction|].
  rewrite appended_for_each. intros Hin. apply in_map_iff in Hin as [obj [<- _]].
  now exists obj.
Qed.

(** What the adapter's [list_buckets] returns, whatever the allow-list. *)
Lemma list_buckets_result (self : TosResource.t) :
  result (TosResource.list_buckets self)
  = match Client.list_buckets (TosResource.client self) with
    | inl e => inl e
    | inr response =>
        inr (match TosResource.configured_buckets self with
             | [] => ListBucketsOutput.buckets response
             | L => filter (allowed L) (ListBucketsOutput.buckets response)
             end)
    end.
Proof.
  unfold TosResource.list_buckets, call.
  destruct (Client.list_buckets (TosResource.client self)) as [e | response].
  - destruct e; reflexivity.
  - destruct (TosResource.configured_buckets self) as [|l L]; [reflexivity|].
    cbn. f_equal. apply filter_ext. intros b. apply (existsb_eqb_allowed (l :: L)).
Qed.

(** Under a non-empty allow-list the adapter returns allowed buckets only. *)
Lemma list_buckets_within_allow_list (self : TosResource.t) (bs : list ListedBucket.t) :
  TosResource.configured_buckets self <> [] ->
  result (TosResource.list_buckets self) = inr bs ->
  forall b, In b bs -> In (ListedBucket.name b) (TosResource.configured_buckets self).
Proof.
  intros HL. rewrite list_buckets_result.
  destruct (Client.list_buckets (TosResource.client self)) as [e | response]; [discriminate|].
  destruct (TosResource.configured_buckets self) as [|l L]; [contradiction|].
  intros [= <-] b Hb. apply filter_In in Hb as [_ Hb]. unfold allowed in Hb.
  now destruct (in_dec string_dec (ListedBucket.name b) (l :: L)).
Qed.

(** Under a non-empty allow-list every resource that [list_resources]
    returns lies in an allowed bucket. *)
Lemma list_resources_within_allow_list (tos_resource : TosResource.t) (rs : list Resource.t) :
  TosResource.configured_buckets tos_resource <> [] ->
  result (server.list_resources tos_resource) = inr rs ->
  forall x, In x rs ->
  exists (bucket : string) (obj : ListedObject.t),
    In bucket (TosResource.configured_buckets tos_resource)
    /\ Resource.uri x = ("tos://" ++ bucket ++ "/" ++ ListedObject.key obj)%string.
Proof.
  intros HL. rewrite list_resources_result.
  destruct (result (TosResource.list_buckets tos_resource)) as [e | B] eqn:HB; [discriminate|].
  destruct (first_error _); [discriminate|].
  intros [= <-] x.
  rewrite appended_app, appended_list_buckets. cbn [app server.appended].
  rewrite appended_app, appended_flat_map. cbn [server.appended]. rewrite app_nil_r.
  intros Hin. apply in_flat_map in Hin as [b [Hb Hx]].
  destruct (appended_process_bucket_body tos_resource b x Hx) as [obj Huri].
  exists (ListedBucket.name b), obj. split; [|exact Huri].
  exact (list_buckets_within_allow_list tos_resource B HL HB b Hb).
Qed.

(** ** [call_tool] *)

(** The tool ["ListBuckets"] prints the name of every bucket the storage
    service returns; the allow-list plays no part in it. *)
Lemma call_tool_ListBuckets_result
    (tos_resource : TosResource.t) (arguments : dict pyval) (B : list ListedBucket.t) :
  Client.list_buckets (TosResource.client tos_resource)
  = inr {| ListBucketsOutput.buckets := B |} ->
  result (server.call_tool tos_resource "ListBuckets" arguments)
  = inr [ {| TextContent.type := "text";
             TextContent.text := Py.repr_list (map ListedBucket.name B) |} ].
Proof.
  intros HB. unfold server.call_tool, call. cbn [String.eqb Ascii.eqb Bool.eqb].
  rewrite HB. reflexivity.
Qed.

(** C1. With the allow-list [["a"]] and a storage service that holds the
    buckets ["a"] and ["b"], the adapter's [list_buckets] returns ["a"]
    alone, and the tool ["ListBuckets"] returns the names of both. *)
Theorem call_tool_ListBuckets_ignores_allow_list :
  TosResource.configured_buckets (demo ["a"]) = ["a"]
  /\ result (TosResource.list_buckets (demo ["a"])) = inr [bucket_named "a"]
  /\ result (server.call_tool (demo ["a"]) "ListBuckets" [])
     = inr [ {| TextContent.type := "text"; TextContent.text := "['a', 'b']" |} ].
Proof. repeat split; reflexivity. Qed.

(** On a name that is none of the three tools, the handler of [call_tool]
    builds its answer without the field [type], and [call_tool] raises. *)
Lemma call_tool_unknown_name
    (tos_resource : TosResource.t) (name : string) (arguments : dict pyval) :
  name <> "ListBuckets" -> name <> "ListObjectsV2" -> name <> "GetObject" ->
  result (server.call_tool tos_resource name arguments)
  = inl (ValidationError "TextContent" "type").
Proof.
  intros H1 H2 H3. unfold server.call_tool.
  apply String.eqb_neq in H1, H2, H3. rewrite H1, H2, H3. reflexivity.
Qed.

(** When the storage service returns a body of well-formed UTF-8,
    ["GetObject"] answers with the decoded text as one text payload. *)
Lemma call_tool_GetObject_success
    (tos_resource : TosResource.t) (arguments : dict pyval) (output : GetObjectOutput.t) :
  Client.get_object (TosResource.client tos_resource) (kwargs arguments) = inr output ->
  Py.utf8_scan Py.Start 0 (StreamBody.read (GetObjectOutput.content output)) = None ->
  result (server.call_tool tos_resource "GetObject" arguments)
  = inr [ {| TextContent.type := "text";
             TextContent.text :=
               string_of_list_byte (StreamBody.read (GetObjectOutput.content output)) |} ].
Proof.
  intros Hget Hutf. unfold server.call_tool, call, decode_utf8.
  cbn [String.eqb Ascii.eqb Bool.eqb]. rewrite Hget. cbn. rewrite Hutf. reflexivity.
Qed.

(** The two ways [call_tool] ends: with one payload of type ["text"]
    built by a branch that succeeded, or with the [ValidationError] of the
    handler. *)
Lemma call_tool_outcomes
    (tos_resource : TosResource.t) (name : string) (arguments : dict pyval) :
  (exists text,
      result (server.call_tool tos_resource name arguments)
      = inr [ {| TextContent.type := "text"; TextContent.text := text |} ])
  \/ result (server.call_tool tos_resource name arguments)
     = inl (ValidationError "TextContent" "type").
Proof.
  unfold server.call_tool, call, decode_utf8.
  destruct (name =? "ListBuckets")%string.
  { destruct (Client.list_buckets _) as [e | output]; [now right | left; eexists; reflexivity]. }
  destruct (name =? "ListObjectsV2")%string.
  { destruct (Client.list_objects _ _) as [e | output];
      [now right | left; eexists; reflexivity]. }
  destruct (name =? "GetObject")%string; [|now right].
  destruct (Client.get_object _ _) as [e | output]; [now right|].
  cbn. destruct (Py.utf8_scan _ _ _) as [[[start stop] reason]|];
    [now right | left; eexists; reflexivity].
Qed.

(** C7. [call_tool("Nonexistent", {})] raises pydantic's [ValidationError]
    instead of returning an ["Error: Unsupported operation"] payload, and
    so does ["GetObject"] when the storage service answers with an error:
    an exception leaves [call_tool]. *)
Theorem call_tool_error_path_raises :
  (forall tos_resource,
      result (server.call_tool tos_resource "Nonexistent" [])
      = inl (ValidationError "TextContent" "type"))
  /\ result (server.call_tool (failing (TosServerError 404 "NoSuchKey" "not found"))
                              "GetObject" [("Bucket", PStr "b"); ("Key", PStr "k")])
     = inl (ValidationError "TextContent" "type").
Proof. split; reflexivity. Qed.

(** * Further properties of the code *)

(** ** Loading the allow-list *)

Lemma split_length (sep : ascii) (s : string) :
  List.length (Py.split sep None s) = S (count_char sep s).
Proof.
  induction s as [|c s IH]; [reflexivity|].
  cbn [Py.split count_char]. destruct (c =? sep)%char.
  - cbn [List.length]. now rewrite IH.
  - destruct (Py.split sep None s) as [|h t]; cbn in IH |- *; lia.
Qed.

Lemma lstrip_idempotent (s : string) : Py.lstrip (Py.lstrip s) = Py.lstrip s.
Proof.
  induction s as [|c s IH]; [reflexivity|].
  cbn [Py.lstrip]. destruct (Py.isspace c) eqn:Hc; [exact IH|].
  cbn [Py.lstrip]. now rewrite Hc.
Qed.

Lemma rstrip_idempotent (s : string) : Py.rstrip (Py.rstrip s) = Py.rstrip s.
Proof.
  induction s as [|c s IH]; [reflexivity|].
  cbn [Py.rstrip]. destruct (Py.rstrip s) as [|d r] eqn:Hr.
  - destruct (Py.isspace c) eqn:Hc; [reflexivity|].
    cbn [Py.rstrip]. now rewrite Hc.
  - cbn [Py.rstrip]. cbn [Py.rstrip] in IH. now rewrite IH.
Qed.

Lemma lstrip_rstrip (s : string) :
  Py.lstrip s = s -> Py.lstrip (Py.rstrip s) = Py.rstrip s.
Proof.
  destruct s as [|c s]; [reflexivity|].
  cbn [Py.lstrip Py.rstrip]. destruct (Py.isspace c) eqn:Hc.
  - intros H. exfalso.
    assert (Hlen : forall t, (String.length (Py.lstrip t) <= String.length t)%nat).
    { induction t as [|d t IHt]; [reflexivity|].
      cbn [Py.lstrip]. destruct (Py.isspace d); cbn [String.length]; lia. }
    specialize (Hlen s). rewrite H in Hlen. cbn in Hlen. lia.
  - intros _. destruct (Py.rstrip s); cbn [Py.lstrip]; now rewrite Hc.
Qed.

Lemma strip_idempotent (s : string) : Py.strip (Py.strip s) = Py.strip s.
Proof.
  unfold Py.strip.
  rewrite (lstrip_rstrip (Py.lstrip s) (lstrip_idempotent s)).
  apply rstrip_idempotent.
Qed.

(** X1. When [TOS_BUCKETS] is set to a non-empty text, the allow-list is
    never empty: it has one entry more than the text has commas, and no
    entry starts or ends with white space. A text such as [","] or [" "]
    therefore switches the filter on with empty names. *)
Theorem configured_buckets_of_nonempty_variable
    (getenv : string -> option string) (bucket_list : string) :
  getenv "TOS_BUCKETS" = Some bucket_list ->
  bucket_list <> EmptyString ->
  TosResource._get_configured_buckets getenv <> []
  /\ List.length (TosResource._get_configured_buckets getenv)
     = S (count_char "," bucket_list)
  /\ forall b, In b (TosResource._get_configured_buckets getenv) -> Py.strip b = b.
Proof.
  intros Henv Hne. unfold TosResource._get_configured_buckets. rewrite Henv.
  destruct bucket_list as [|c s]; [contradiction|].
  assert (Hlen : List.length (map Py.strip (Py.split "," None (String c s)))
                 = S (count_char "," (String c s)))
    by now rewrite length_map, split_length.
  split; [|split].
  - intros Hnil. rewrite Hnil in Hlen. discriminate.
  - exact Hlen.
  - intros b Hb. apply in_map_iff in Hb as [x [<- _]]. apply strip_idempotent.
Qed.

Lemma configured_buckets_of_nonempty_variable_witness :
  TosResource._get_configured_buckets
    (fun v => if (v =? "TOS_BUCKETS")%string then Some " logs , ,data" else None) <> []
  /\ List.length
       (TosResource._get_configured_buckets
          (fun v => if (v =? "TOS_BUCKETS")%string then Some " logs , ,data" else None))
     = S (count_char "," " logs , ,data")
  /\ forall b,
      In b (TosResource._get_configured_buckets
              (fun v => if (v =? "TOS_BUCKETS")%string then Some " logs , ,data" else None)) ->
      Py.strip b = b.
Proof.
  apply (configured_buckets_of_nonempty_variable
           (fun v => if (v =? "TOS_BUCKETS")%string then Some " logs , ,data" else None)
           " logs , ,data" eq_refl).
  discriminate.
Defined.

(** ** The adapter: requests, logs and errors *)

(** X2. A failed bucket enumeration is not retried and not translated:
    [list_buckets] sends its one request, raises the exception of the client
    unchanged, and writes one error record with the message of the service
    when the exception is a [TosServerError], none otherwise. *)
Theorem list_buckets_reraises (self : TosResource.t) (e : exn) :
  Client.list_buckets (TosResource.client self) = inl e ->
  result (TosResource.list_buckets self) = inl e
  /\ requests (events (TosResource.list_buckets self)) = [("list_buckets", no_args)]
  /\ logged (events (TosResource.list_buckets self))
     = match e with
       | TosServerError _ message _ => [("error", "List buckets error: " ++ message)%string]
       | _ => []
       end.
Proof.
  intros He. unfold TosResource.list_buckets, call. rewrite He.
  destruct e; repeat split; reflexivity.
Qed.

Lemma list_buckets_reraises_witness :
  result (TosResource.list_buckets (failing (TosServerError 503 "SlowDown" "busy")))
  = inl (TosServerError 503 "SlowDown" "busy")
  /\ requests (events (TosResource.list_buckets (failing (TosServerError 503 "SlowDown" "busy"))))
     = [("list_buckets", no_args)]
  /\ logged (events (TosResource.list_buckets (failing (TosServerError 503 "SlowDown" "busy"))))
     = [("error", "List buckets error: SlowDown")].
Proof.
  exact (list_buckets_reraises (failing (TosServerError 503 "SlowDown" "busy")) _ eq_refl).
Defined.

(** X3. [list_objects] asks for a single page: whatever the bucket and the
    answer, it sends exactly one request, with [max_keys] 1000 and the
    prefix and marker it was given; it returns the [contents] of the answer
    as they are, or raises the exception of the client unchanged. *)
Theorem list_objects_single_page
    (self : TosResource.t) (bucket prefix : string) (marker : option string) :
  requests (events (TosResource.list_objects self bucket prefix marker))
  = [listing_request bucket prefix marker]
  /\ result (TosResource.list_objects self bucket prefix marker)
     = match Client.list_objects (TosResource.client self)
               (snd (listing_request bucket prefix marker)) with
       | inl e => inl e
       | inr response => inr (ListObjectsOutput.contents response)
       end.
Proof.
  unfold TosResource.list_objects, call, listing_request. cbn [snd].
  destruct (Client.list_objects _ _) as [e | response]; [destruct e|]; split; reflexivity.
Qed.

Lemma dict_get_set {V} (d : dict V) (k k' : string) (v : V) :
  dict_get (dict_set d k v) k' = if (k =? k')%string then Some v else dict_get d k'.
Proof.
  induction d as [|[k0 v0] d IH]; cbn [dict_set dict_get].
  - reflexivity.
  - destruct (String.eqb_spec k0 k) as [-> | Hne]; cbn [dict_get].
    + now destruct (k =? k')%string.
    + rewrite IH. destruct (String.eqb_spec k0 k') as [-> | Hne']; [|reflexivity].
      destruct (String.eqb_spec k k') as [-> | _]; [contradiction | reflexivity].
Qed.

Lemma dict_set_keys {V} (d : dict V) (k : string) (v : V) :
  NoDup (map fst d) ->
  NoDup (map fst (dict_set d k v))
  /\ forall x, In x (map fst (dict_set d k v)) <-> x = k \/ In x (map fst d).
Proof.
  induction d as [|[k0 v0] d IH]; cbn [dict_set map fst].
  - intros _. split; [repeat constructor; intros []|]. intros x. cbn. intuition.
  - intros Hnd. inversion Hnd as [|? ? Hk0 Hd]; subst.
    destruct (String.eqb_spec k0 k) as [-> | Hne]; cbn [map fst].
    + split; [exact Hnd|]. intros x. cbn. intuition.
    + destruct (IH Hd) as [IHnd IHin]. split.
      * constructor; [|exact IHnd]. rewrite IHin. intros [-> | Hin]; [now apply Hne | easy].
      * intros x. cbn. rewrite IHin. intuition.
Qed.

Lemma lower_idempotent (s : string) : Py.lower (Py.lower s) = Py.lower s.
Proof.
  induction s as [|c s IH]; [reflexivity|].
  cbn [Py.lower]. rewrite IH. f_equal.
  destruct c as [[] [] [] [] [] [] [] []]; reflexivity.
Qed.

Lemma metadata_fold (items : list (string * string)) (d : dict string) :
  NoDup (map fst d) ->
  (forall k, In k (map fst d) -> Py.lower k = k) ->
  let m := fold_left (fun d kv => dict_set d (Py.lower (fst kv)) (snd kv)) items d in
  NoDup (map fst m)
  /\ (forall k, In k (map fst m) -> Py.lower k = k)
  /\ forall k,
      dict_get m k
      = fold_left (fun found kv => if (Py.lower (fst kv) =? k)%string
                                   then Some (snd kv) else found)
                  items (dict_get d k).
Proof.
  revert d. induction items as [|[k0 v0] items IH]; intros d Hnd Hlow; cbn [fold_left].
  - repeat split; assumption.
  - destruct (dict_set_keys d (Py.lower k0) v0 Hnd) as [Hnd' Hin'].
    cbn [fst snd].
    destruct (IH (dict_set d (Py.lower k0) v0) Hnd') as (H1 & H2 & H3).
    + intros k Hk. apply Hin' in Hk as [-> | Hk]; [apply lower_idempotent | now apply Hlow].
    + repeat split; [exact H1 | exact H2|].
      intros k. rewrite H3, dict_get_set. reflexivity.
Qed.

(** X4. The dictionary [get_object] returns for a fetched object: its
    content is the chunks of the body in order, its content type is the one
    of the answer, and its metadata has lower-case keys, each once; under a
    key it holds the value of the last header that lower-cases to that key. *)
Theorem get_object_dictionary
    (self : TosResource.t) (bucket key : string) (response : GetObjectOutput.t) :
  Client.get_object (TosResource.client self) (args [PStr bucket; PStr key]) = inr response ->
  exists d,
    result (TosResource.get_object self bucket key) = inr d
    /\ TosResource.content d
       = List.concat (StreamBody.data (GetObjectOutput.content response))
    /\ TosResource.content_type d = GetObjectOutput.content_type response
    /\ NoDup (map fst (TosResource.metadata d))
    /\ (forall k, In k (map fst (TosResource.metadata d)) -> Py.lower k = k)
    /\ forall k,
        dict_get (TosResource.metadata d) k
        = last_value (StreamBody.items (GetObjectOutput.content response)) k.
Proof.
  intros Hget. rewrite (get_object_success self bucket key response Hget).
  eexists. split; [reflexivity|]. cbn [TosResource.content TosResource.content_type
                                       TosResource.metadata].
  split; [reflexivity|]. split; [reflexivity|].
  apply (metadata_fold (StreamBody.items (GetObjectOutput.content response)) []).
  - constructor.
  - intros k [].
Qed.

Lemma get_object_dictionary_witness :
  exists d,
    result (TosResource.get_object chunked "a" "k") = inr d
    /\ TosResource.content d = List.concat [list_byte_of_string "he"; list_byte_of_string "llo"]
    /\ TosResource.content_type d = Some "text/plain"
    /\ NoDup (map fst (TosResource.metadata d))
    /\ (forall k, In k (map fst (TosResource.metadata d)) -> Py.lower k = k)
    /\ forall k,
        dict_get (TosResource.metadata d) k
        = last_value [("ETag", "1"); ("Content-Length", "5"); ("etag", "2")] k.
Proof. exact (get_object_dictionary chunked "a" "k" chunked_output eq_refl). Defined.

(** ** The text classifier *)

Lemma lower_app (s t : string) : Py.lower (s ++ t) = (Py.lower s ++ Py.lower t)%string.
Proof. induction s as [|c s IH]; cbn [append Py.lower]; [reflexivity | now rewrite IH]. Qed.

Lemma lower_length (s : string) : String.length (Py.lower s) = String.length s.
Proof. induction s as [|c s IH]; cbn [Py.lower String.length]; [reflexivity | now rewrite IH]. Qed.

Lemma append_length (s t : string) :
  String.length (s ++ t) = (String.length s + String.length t)%nat.
Proof. induction s as [|c s IH]; cbn [append String.length]; [reflexivity | now rewrite IH]. Qed.

Lemma append_assoc (s t u : string) : ((s ++ t) ++ u = s ++ (t ++ u))%string.
Proof. induction s as [|c s IH]; cbn [append]; [reflexivity | now rewrite IH]. Qed.

(** X5. The classification looks at the end of the key only and not at
    the case of its letters: a key and its lower-case form are classified
    alike, and a text key stays a text key under any directory in front
    of it. *)
Theorem is_text_file_ignores_case_and_directories (directory key : string) :
  TosResource.is_text_file (Py.lower key) = TosResource.is_text_file key
  /\ (TosResource.is_text_file key = true ->
      TosResource.is_text_file (directory ++ key) = true).
Proof.
  split.
  - unfold TosResource.is_text_file. now rewrite lower_idempotent.
  - unfold TosResource.is_text_file. rewrite !existsb_exists.
    intros [ext [Hin Hend]]. exists ext. split; [exact Hin|].
    apply endswith_spec in Hend as [p Hp]. apply endswith_spec.
    exists (Py.lower directory ++ p)%string.
    now rewrite lower_app, Hp, append_assoc.
Qed.

Lemma is_text_file_ignores_case_and_directories_witness :
  TosResource.is_text_file (Py.lower "README.MD") = TosResource.is_text_file "README.MD"
  /\ TosResource.is_text_file ("docs/v2/" ++ "README.MD") = true.
Proof.
  split.
  - exact (proj1 (is_text_file_ignores_case_and_directories "docs/v2/" "README.MD")).
  - exact (proj2 (is_text_file_ignores_case_and_directories "docs/v2/" "README.MD") eq_refl).
Defined.

(** X6. A key of fewer than three characters is never a text key: every
    extension has at least three. *)
Theorem is_text_file_short_key (key : string) :
  (String.length key < 3)%nat -> TosResource.is_text_file key = false.
Proof.
  intros Hlen. apply not_true_is_false. unfold TosResource.is_text_file.
  rewrite existsb_exists. intros [ext [Hin Hend]].
  apply endswith_spec in Hend as [p Hp].
  apply (f_equal String.length) in Hp. rewrite lower_length, append_length in Hp.
  assert (Hext : (3 <= String.length ext)%nat).
  { cbn in Hin. repeat (destruct Hin as [<- | Hin]; [cbn; lia|]). contradiction. }
  lia.
Qed.

Lemma is_text_file_short_key_witness : TosResource.is_text_file "md" = false.
Proof. apply (is_text_file_short_key "md"). cbn. lia. Defined.

(** ** [list_resources]: what it returns, requests and logs *)

(** The trace of [list_resources]. *)
Lemma list_resources_events (tos_resource : TosResource.t) :
  events (server.list_resources tos_resource)
  = events (TosResource.list_buckets tos_resource)
    ++ match result (TosResource.list_buckets tos_resource) with
       | inl e => [Log "error" ("Resource listing failed: " ++ str_exn e)]
       | inr B =>
           SemAcquire 3
           :: flat_map (fun b => events (server.process_bucket_body tos_resource b)) B
           ++ SemRelease
           :: match first_error
                      (map (fun b => result (server.process_bucket_body tos_resource b)) B) with
              | Some e => [Log "error" ("Resource listing failed: " ++ str_exn e)]
              | None => []
              end
       end.
Proof.
  unfold server.list_resources.
  rewrite events_bind, result_try_except, result_bind.
  rewrite events_try_except, events_bind, result_bind.
  destruct (result (TosResource.list_buckets tos_resource)) as [e | B].
  - cbn -[append str_exn]. now rewrite !app_nil_r.
  - rewrite result_bind, result_async_with, events_bind, events_async_with, result_async_with.
    unfold server.process_bucket. rewrite <- map_map.
    destruct (gather_async_def (map (server.process_bucket_body tos_resource) B))
      as [Hev Hres].
    rewrite Hev, flat_map_map.
    rewrite (map_map (server.process_bucket_body tos_resource) result) in Hres.
    destruct (first_error _) as [e|].
    + rewrite Hres. cbn -[append str_exn].
      rewrite !app_nil_r, <- !app_assoc. cbn [app]. rewrite <- !app_assoc. reflexivity.
    + destruct Hres as [l ->]. cbn -[append str_exn].
      rewrite !app_nil_r. reflexivity.
Qed.





Lemma requests_app (t1 t2 : trace) : requests (t1 ++ t2) = requests t1 ++ requests t2.
Proof.
  induction t1 as [|ev t1 IH]; [reflexivity|].
  destruct ev; cbn [app requests]; rewrite IH; reflexivity.
Qed.

Lemma requests_list_buckets (self : TosResource.t) :
  requests (events (TosResource.list_buckets self)) = [("list_buckets", no_args)].
Proof.
  unfold TosResource.list_buckets, call.
  destruct (Client.list_buckets (TosResource.client self)) as [e | response].
  - destruct e; reflexivity.
  - destruct (TosResource.configured_buckets self); reflexivity.
Qed.

Lemma requests_list_objects (self : TosResource.t) (bucket prefix : string)
    (marker : option string) :
  requests (events (TosResource.list_objects self bucket prefix marker))
  = [listing_request bucket prefix marker].
Proof.
  unfold TosResource.list_objects, call, listing_request.
  destruct (Client.list_objects _ _) as [e | response]; [destruct e|]; reflexivity.
Qed.

Lemma requests_for_each_append {A} (l : list A) (f : A -> Resource.t) :
  requests (events (for_each l (fun x => emit (Append (f x))))) = [].
Proof.
  induction l as [|x l IH]; [reflexivity|].
  cbn [for_each]. rewrite events_bind, requests_app. cbn [emit result snd]. now rewrite IH.
Qed.

Lemma requests_process_bucket_body (tos_resource : TosResource.t) (b : ListedBucket.t) :
  requests (events (server.process_bucket_body tos_resource b))
  = [listing_request (ListedBucket.name b) "" None].
Proof.
  unfold server.process_bucket_body.
  rewrite events_bind, requests_app, requests_list_objects.
  destruct (result _); [reflexivity|].
  now rewrite (requests_for_each_append _ (resource_of b)).
Qed.

Lemma requests_list_resources (tos_resource : TosResource.t) :
  requests (events (server.list_resources tos_resource))
  = ("list_buckets", no_args)
    :: match result (TosResource.list_buckets tos_resource) with
       | inl _ => []
       | inr B => map (fun b => listing_request (ListedBucket.name b) "" None) B
       end.
Proof.
  rewrite list_resources_events, requests_app, requests_list_buckets. cbn [app]. f_equal.
  destruct (result (TosResource.list_buckets tos_resource)) as [e | B]; [reflexivity|].
  cbn [requests]. rewrite requests_app.
  replace (requests (SemRelease :: _)) with (@nil (string * call_args))
    by (cbn [requests]; now destruct (first_error _)).
  rewrite app_nil_r. induction B as [|b B IH]; [reflexivity|].
  cbn [flat_map map]. now rewrite requests_app, requests_process_bucket_body, IH.
Qed.

(** X8. The requests of one [list_resources]: the bucket enumeration, then
    one listing per enumerated bucket, in order, each for the first page of
    at most 1000 keys with no prefix and no marker. A bucket is listed once,
    the listings go on after one of them has failed, and nothing is listed
    when the enumeration fails. No object is fetched. *)
Theorem list_resources_requests (tos_resource : TosResource.t) :
  requests (events (server.list_resources tos_resource))
  = ("list_buckets", no_args)
    :: match result (TosResource.list_buckets tos_resource) with
       | inl _ => []
       | inr B => map (fun b => listing_request (ListedBucket.name b) "" None) B
       end.
Proof. apply requests_list_resources. Qed.

Lemma logged_app (t1 t2 : trace) : logged (t1 ++ t2) = logged t1 ++ logged t2.
Proof.
  induction t1 as [|ev t1 IH]; [reflexivity|].
  destruct ev; cbn [app logged]; rewrite IH; reflexivity.
Qed.

Lemma logged_flat_map {A} (f : A -> trace) (l : list A) :
  logged (flat_map f l) = flat_map (fun x => logged (f x)) l.
Proof.
  induction l as [|x l IH]; [reflexivity|].
  cbn [flat_map]. now rewrite logged_app, IH.
Qed.

Lemma logged_list_buckets_ok (self : TosResource.t) (B : list ListedBucket.t) :
  result (TosResource.list_buckets self) = inr B ->
  logged (events (TosResource.list_buckets self)) = [].
Proof.
  unfold TosResource.list_buckets, call.
  destruct (Client.list_buckets (TosResource.client self)) as [e | response].
  - destruct e; discriminate.
  - destruct (TosResource.configured_buckets self); reflexivity.
Qed.

Lemma logged_for_each_append {A} (l : list A) (f : A -> Resource.t) :
  logged (events (for_each l (fun x => emit (Append (f x))))) = [].
Proof.
  induction l as [|x l IH]; [reflexivity|].
  cbn [for_each]. rewrite events_bind, logged_app. cbn [emit result snd]. now rewrite IH.
Qed.

Lemma logged_process_bucket_body_ok (tos_resource : TosResource.t) (b : ListedBucket.t) :
  result (server.process_bucket_body tos_resource b) = inr tt ->
  logged (events (server.process_bucket_body tos_resource b)) = [].
Proof.
  unfold server.process_bucket_body. rewrite result_bind, events_bind, logged_app.
  unfold TosResource.list_objects, call.
  destruct (Client.list_objects _ _) as [e | response].
  - destruct e; discriminate.
  - intros _. cbn -[for_each]. apply (logged_for_each_append _ (resource_of b)).
Qed.

Lemma first_error_none_inv {A B} (f : A -> exn + B) (l : list A) :
  first_error (map f l) = None -> forall x, In x l -> exists v, f x = inr v.
Proof.
  induction l as [|y l IH]; intros H x Hx; [contradiction|].
  cbn [map first_error] in H. destruct (f y) as [e | v] eqn:Hy; [discriminate|].
  destruct Hx as [<- | Hx]; [now exists v | now apply IH].
Qed.

(** X9. A [list_resources] that returns has written no log record; one
    that raises has written, as its last record, an error record with the
    text of the exception it raises. *)
Theorem list_resources_logging (tos_resource : TosResource.t) :
  match result (server.list_resources tos_resource) with
  | inr _ => logged (events (server.list_resources tos_resource)) = []
  | inl e =>
      exists earlier,
        logged (events (server.list_resources tos_resource))
        = earlier ++ [("error", "Resource listing failed: " ++ str_exn e)%string]
  end.
Proof.
  rewrite list_resources_result, list_resources_events, logged_app.
  destruct (result (TosResource.list_buckets tos_resource)) as [e | B] eqn:HB.
  - now exists (logged (events (TosResource.list_buckets tos_resource))).
  - rewrite (logged_list_buckets_ok tos_resource B HB). cbn [app logged].
    rewrite logged_app, logged_flat_map. cbn [logged].
    destruct (first_error _) as [e|] eqn:Hfirst.
    + now eexists.
    + cbn [logged]. rewrite app_nil_r.
      pose proof (first_error_none_inv _ B Hfirst) as Hall. clear Hfirst HB.
      induction B as [|b B IH]; [reflexivity|].
      cbn [flat_map]. rewrite IH by (intros x Hx; apply Hall; now right).
      rewrite app_nil_r. apply logged_process_bucket_body_ok.
      destruct (Hall b (or_introl eq_refl)) as [[] Hb]. exact Hb.
Qed.

(** ** [read_resource]: parsing, requests and logs *)

Lemma requests_get_object (self : TosResource.t) (bucket key : string) :
  requests (events (TosResource.get_object self bucket key))
  = [("get_object", args [PStr bucket; PStr key])].
Proof.
  unfold TosResource.get_object, call.
  destruct (Client.get_object _ _) as [e | response]; [|reflexivity].
  destruct e as [| | | code msg text |]; try reflexivity.
  cbn -[append]. now destruct (code =? 404)%Z.
Qed.

(** [read_resource] on a URI with the prefix and a slash: the fetch of the
    parsed bucket and key, then the two branches, inside the two handlers. *)
Lemma read_resource_well_formed (tos_resource : TosResource.t) (bucket key : string) :
  Py.contains_char "/" bucket = false ->
  server.read_resource tos_resource ("tos://" ++ bucket ++ "/" ++ key)
  = try_except
      (response <- TosResource.get_object tos_resource bucket key ;;
       if TosResource.is_text_file key then
         text_content <- decode_utf8 (Py.b64encode (TosResource.content response)) ;;
         ret text_content
       else
         emit (LogDebug
                 {| ReadResourceResult.contents :=
                      [ {| BlobResourceContents.blob :=
                             Py.repr_bytes (Py.b64encode (TosResource.content response));
                           BlobResourceContents.uri := "tos://" ++ bucket ++ "/" ++ key;
                           BlobResourceContents.mimeType :=
                             TosResource.content_type response |} ] |}) ;;
         ret (Py.repr_bytes (Py.b64encode (TosResource.content response))))
      [(is_ValueError,
        fun e => emit (Log "error" ("URI parsing error: " ++ str_exn e)) ;; raise e);
       (is_Exception,
        fun e => emit (Log "error" ("Read resource failed: " ++ str_exn e)) ;; raise e)].
Proof.
  intros Hb. unfold server.read_resource. rewrite startswith_tos.
  change (Py.slice_from 6 ("tos://" ++ bucket ++ "/" ++ key))
    with (bucket ++ String "/" key)%string.
  rewrite (split_at_first_separator "/" bucket key Hb).
  cbn [negb unpack2]. unfold bind at 1. cbn [ret app].
  destruct (TosResource.get_object tos_resource bucket key ;; _) as [t r]. reflexivity.
Qed.

Lemma requests_read_resource_well_formed
    (tos_resource : TosResource.t) (bucket key : string) :
  Py.contains_char "/" bucket = false ->
  requests (events (server.read_resource tos_resource ("tos://" ++ bucket ++ "/" ++ key)))
  = [("get_object", args [PStr bucket; PStr key])].
Proof.
  intros Hb. rewrite (read_resource_well_formed tos_resource bucket key Hb).
  rewrite events_try_except, requests_app, events_bind, requests_app, requests_get_object.
  rewrite result_bind.
  destruct (result (TosResource.get_object tos_resource bucket key)) as [e | response].
  - cbn [app handle]. destruct (is_ValueError e); reflexivity.
  - destruct (TosResource.is_text_file key).
    + rewrite decode_utf8_b64encode. reflexivity.
    + reflexivity.
Qed.

(** X10. A URI [tos://<bucket>/<key>] is split at the first slash after
    the prefix: the key may hold further slashes and may be empty.
    [read_resource] then sends exactly one request, the fetch of that key in
    that bucket, whatever the answer. *)
Theorem read_resource_fetches_parsed_object
    (tos_resource : TosResource.t) (bucket key : string) :
  Py.contains_char "/" bucket = false ->
  requests (events (server.read_resource tos_resource ("tos://" ++ bucket ++ "/" ++ key)))
  = [("get_object", args [PStr bucket; PStr key])].
Proof. apply requests_read_resource_well_formed. Qed.

Lemma read_resource_fetches_parsed_object_witness :
  requests (events (server.read_resource flaky ("tos://" ++ "a" ++ "/" ++ "dir/sub/n.txt")))
  = [("get_object", args [PStr "a"; PStr "dir/sub/n.txt"])]
  /\ requests (events (server.read_resource flaky ("tos://" ++ "a" ++ "/" ++ "")))
     = [("get_object", args [PStr "a"; PStr ""])].
Proof.
  split.
  - exact (read_resource_fetches_parsed_object flaky "a" "dir/sub/n.txt" eq_refl).
  - exact (read_resource_fetches_parsed_object flaky "a" "" eq_refl).
Defined.

Lemma prefix_decomposition (p s : string) :
  String.prefix p s = true -> s = (p ++ Py.slice_from (String.length p) s)%string.
Proof.
  revert s. induction p as [|c p IH]; intros s H; [reflexivity|].
  destruct s as [|d s]; [discriminate|].
  cbn [String.prefix] in H. destruct (ascii_dec c d) as [<- | _]; [|discriminate].
  cbn [String.length Py.slice_from append]. f_equal. now apply IH.
Qed.

Lemma contains_decomposition (sep : ascii) (s : string) :
  Py.contains_char sep s = true ->
  exists b k, s = (b ++ String sep k)%string /\ Py.contains_char sep b = false.
Proof.
  induction s as [|c s IH]; [discriminate|].
  cbn [Py.contains_char]. destruct (c =? sep)%char eqn:Hc.
  - intros _. apply Ascii.eqb_eq in Hc as ->. now exists EmptyString, s.
  - cbn [orb]. intros H. destruct (IH H) as (b & k & -> & Hb).
    exists (String c b), k. split; [reflexivity|]. cbn [Py.contains_char]. now rewrite Hc.
Qed.

(** X11. [read_resource] reaches the storage service exactly when the URI
    starts with [tos://] and has a slash after the prefix; on every other
    URI it sends nothing. *)
Theorem read_resource_requests_iff (tos_resource : TosResource.t) (uri : string) :
  requests (events (server.read_resource tos_resource uri)) <> []
  <-> Py.startswith uri "tos://" = true
      /\ Py.contains_char "/" (Py.slice_from 6 uri) = true.
Proof.
  destruct (Py.startswith uri "tos://") eqn:Hstart.
  - apply prefix_decomposition in Hstart. cbn [String.length] in Hstart.
    set (rest := Py.slice_from 6 uri) in *. rewrite Hstart.
    destruct (Py.contains_char "/" rest) eqn:Hslash.
    + destruct (contains_decomposition "/" rest Hslash) as (b & k & -> & Hb).
      change (b ++ String "/" k)%string with (b ++ "/" ++ k)%string.
      rewrite (requests_read_resource_well_formed tos_resource b k Hb).
      split; [intros _; now split | intros _; discriminate].
    + split; [|intros [_ H]; discriminate].
      intros H. exfalso. apply H. unfold server.read_resource.
      rewrite startswith_tos.
      change (Py.slice_from 6 ("tos://" ++ rest)) with rest.
      rewrite (split_without_separator "/" (Some 1%nat) rest Hslash).
      now destruct rest.
  - split; [|intros [H _]; discriminate].
    intros H. exfalso. apply H. unfold server.read_resource. now rewrite Hstart.
Qed.

(** X12. How [read_resource] ends when the fetch fails. A 404 of the
    service leaves it as the [ValueError] "Object ... not found in ..." and
    is logged once, as a URI parsing error. Any other [TosServerError] is
    raised unchanged and logged twice, by the adapter and by the handler.
    Any other exception is raised unchanged and logged once, as a URI
    parsing error when it is a [ValueError] and as a failed read otherwise. *)
Theorem read_resource_fetch_error
    (tos_resource : TosResource.t) (bucket key : string) (e : exn) :
  Py.contains_char "/" bucket = false ->
  Client.get_object (TosResource.client tos_resource) (args [PStr bucket; PStr key]) = inl e ->
  let m := server.read_resource tos_resource ("tos://" ++ bucket ++ "/" ++ key) in
  match e with
  | TosServerError code message text =>
      if (code =? 404)%Z then
        result m = inl (ValueError ("Object " ++ key ++ " not found in " ++ bucket))
        /\ logged (events m)
           = [("error",
               "URI parsing error: Object " ++ key ++ " not found in " ++ bucket)%string]
      else
        result m = inl e
        /\ logged (events m)
           = [("error", "Get object error: " ++ message)%string;
              ("error", "Read resource failed: " ++ text)%string]
  | _ =>
      result m = inl e
      /\ logged (events m)
         = [("error",
             (if is_ValueError e then "URI parsing error: " else "Read resource failed: ")
             ++ str_exn e)%string]
  end.
Proof.
  intros Hb He m. subst m.
  rewrite (read_resource_well_formed tos_resource bucket key Hb).
  unfold TosResource.get_object, call. rewrite He.
  destruct e as [msg | obj start stop reason | model field | code message text | cls text];
    try (split; reflexivity).
  destruct (code =? 404)%Z eqn:Hcode; cbn -[append]; rewrite Hcode; split; reflexivity.
Qed.

Lemma read_resource_fetch_error_witness :
  (result (server.read_resource (failing (TosServerError 404 "NoSuchKey" "not found"))
                                ("tos://" ++ "b" ++ "/" ++ "k"))
   = inl (ValueError ("Object " ++ "k" ++ " not found in " ++ "b"))
   /\ logged (events (server.read_resource
                        (failing (TosServerError 404 "NoSuchKey" "not found"))
                        ("tos://" ++ "b" ++ "/" ++ "k")))
      = [("error", "URI parsing error: Object " ++ "k" ++ " not found in " ++ "b")%string])
  /\ (result (server.read_resource (failing (TosServerError 503 "SlowDown" "busy"))
                                   ("tos://" ++ "b" ++ "/" ++ "k"))
      = inl (TosServerError 503 "SlowDown" "busy")
      /\ logged (events (server.read_resource
                           (failing (TosServerError 503 "SlowDown" "busy"))
                           ("tos://" ++ "b" ++ "/" ++ "k")))
         = [("error", "Get object error: " ++ "SlowDown")%string;
            ("error", "Read resource failed: " ++ "busy")%string]).
Proof.
  split.
  - exact (read_resource_fetch_error
             (failing (TosServerError 404 "NoSuchKey" "not found")) "b" "k" _ eq_refl eq_refl).
  - exact (read_resource_fetch_error
             (failing (TosServerError 503 "SlowDown" "busy")) "b" "k" _ eq_refl eq_refl).
Defined.

(** ** From [list_resources] to [read_resource] *)




(** ** [call_tool] and [list_tools] *)

(** X14. [call_tool] sends at most one request and writes no log record:
    the enumeration for ["ListBuckets"]; for ["ListObjectsV2"] and
    ["GetObject"] the client method with the argument dictionary passed on
    as it came, as keyword arguments, whatever keys it holds; nothing at all
    for any other name. *)
Theorem call_tool_trace
    (tos_resource : TosResource.t) (name : string) (arguments : dict pyval) :
  events (server.call_tool tos_resource name arguments)
  = if (name =? "ListBuckets")%string then
      [Request "list_buckets" no_args; Response "list_buckets" no_args]
    else if (name =? "ListObjectsV2")%string then
      [Request "list_objects" (kwargs arguments); Response "list_objects" (kwargs arguments)]
    else if (name =? "GetObject")%string then
      [Request "get_object" (kwargs arguments); Response "get_object" (kwargs arguments)]
    else [].
Proof.
  unfold server.call_tool, call, decode_utf8.
  destruct (name =? "ListBuckets")%string.
  { now destruct (Client.list_buckets _). }
  destruct (name =? "ListObjectsV2")%string.
  { now destruct (Client.list_objects _ _). }
  destruct (name =? "GetObject")%string; [|reflexivity].
  destruct (Client.get_object _ _) as [e | output]; [reflexivity|].
  cbn. now destruct (Py.utf8_scan _ _ _) as [[[start stop] reason]|].
Qed.

(** X15. The catalogue and the dispatch agree: [list_tools] has no effect,
    [call_tool] reaches the storage service exactly for the names that
    [list_tools] advertises, and every parameter a listed schema requires is
    one it declares. *)
Theorem call_tool_dispatches_listed_tools :
  events list_tools = []
  /\ (forall (tos_resource : TosResource.t) (name : string) (arguments : dict pyval),
        In name (map Tool.name listed_tools)
        <-> requests (events (server.call_tool tos_resource name arguments)) <> [])
  /\ forall tool, In tool listed_tools ->
       incl (required_parameters (Tool.inputSchema tool))
            (declared_parameters (Tool.inputSchema tool)).
Proof.
  split; [reflexivity|]. split.
  - intros tos_resource name arguments.
    unfold server.call_tool, call, decode_utf8.
    change (map Tool.name listed_tools) with ["ListBuckets"; "ListObjectsV2"; "GetObject"].
    destruct (String.eqb_spec name "ListBuckets") as [-> | H1].
    { split; [|now left]. intros _. now destruct (Client.list_buckets _). }
    destruct (String.eqb_spec name "ListObjectsV2") as [-> | H2].
    { split; [|now right; left]. intros _. now destruct (Client.list_objects _ _). }
    destruct (String.eqb_spec name "GetObject") as [-> | H3].
    { split; [|now right; right; left]. intros _.
      destruct (Client.get_object _ _) as [e | output]; [discriminate|].
      cbn. now destruct (Py.utf8_scan _ _ _) as [[[start stop] reason]|]. }
    split; [|intros H; now contradiction H].
    intros [<- | [<- | [<- | []]]]; congruence.
  - intros tool [<- | [<- | [<- | []]]] p Hp; cbn in Hp |- *; intuition.
Qed.

(** ** Configuration *)

Lemma filter_allowed_same_names (L1 L2 : list string) (B : list ListedBucket.t) :
  (forall n, In n L1 <-> In n L2) -> filter (allowed L1) B = filter (allowed L2) B.
Proof.
  intros Hsame. apply filter_ext. intros b. unfold allowed.
  destruct (in_dec string_dec (ListedBucket.name b) L1) as [H1 | H1];
    destruct (in_dec string_dec (ListedBucket.name b) L2) as [H2 | H2];
    try reflexivity; exfalso; [apply H2 | apply H1]; now apply Hsame.
Qed.

(** X16. Of a non-empty allow-list only the set of its names counts: two
    lists with the same names, in any order and with any repetition, make
    [list_buckets] return the same buckets. *)
Theorem allow_list_is_a_set (self : TosResource.t) (L1 L2 : list string) :
  L1 <> [] -> L2 <> [] -> (forall n, In n L1 <-> In n L2) ->
  result (TosResource.list_buckets (with_allow_list L1 self))
  = result (TosResource.list_buckets (with_allow_list L2 self)).
Proof.
  intros H1 H2 Hsame. rewrite !list_buckets_result. cbn [with_allow_list TosResource.client
    TosResource.configured_buckets].
  destruct (Client.list_buckets (TosResource.client self)) as [e | response]; [reflexivity|].
  destruct L1 as [|a L1]; [contradiction|]. destruct L2 as [|b L2]; [contradiction|].
  f_equal. now apply filter_allowed_same_names.
Qed.

Lemma allow_list_is_a_set_witness :
  result (TosResource.list_buckets (with_allow_list ["b"; "a"; "b"] (demo [])))
  = result (TosResource.list_buckets (with_allow_list ["a"; "b"] (demo []))).
Proof.
  apply (allow_list_is_a_set (demo []) ["b"; "a"; "b"] ["a"; "b"]); try discriminate.
  intros n. cbn. intuition.
Defined.

(** ** What the handlers return on success *)

(** X17. A read of an object the storage service holds: one fetch, no
    error record, and as value the base64 text of the content under a text
    key; under any other key the value is the [bytes] literal of that text,
    with [b'] in front and ['] behind, and the debug record holds the same
    literal as its blob. *)
Theorem read_resource_of_stored_object
    (tos_resource : TosResource.t) (bucket key : string) (response : GetObjectOutput.t) :
  Py.contains_char "/" bucket = false ->
  Client.get_object (TosResource.client tos_resource) (args [PStr bucket; PStr key])
  = inr response ->
  let uri := ("tos://" ++ bucket ++ "/" ++ key)%string in
  let encoded :=
    string_of_list_byte
      (Py.b64encode (StreamBody.read (GetObjectOutput.content response))) in
  server.read_resource tos_resource uri
  = if TosResource.is_text_file key then
      ([Request "get_object" (args [PStr bucket; PStr key]);
        Response "get_object" (args [PStr bucket; PStr key])],
       inr encoded)
    else
      ([Request "get_object" (args [PStr bucket; PStr key]);
        Response "get_object" (args [PStr bucket; PStr key]);
        LogDebug
          {| ReadResourceResult.contents :=
               [ {| BlobResourceContents.blob := ("b'" ++ encoded ++ "'")%string;
                    BlobResourceContents.uri := uri;
                    BlobResourceContents.mimeType :=
                      GetObjectOutput.content_type response |} ] |}],
       inr ("b'" ++ encoded ++ "'")%string).
Proof.
  intros Hb Hget uri encoded. subst uri encoded.
  rewrite (read_resource_well_formed tos_resource bucket key Hb).
  rewrite (get_object_success tos_resource bucket key response Hget).
  unfold bind at 1. cbn [TosResource.content TosResource.content_type].
  destruct (TosResource.is_text_file key).
  - rewrite decode_utf8_b64encode. reflexivity.
  - rewrite (repr_bytes_plain _ (b64encode_plain _)). reflexivity.
Qed.

Lemma read_resource_of_stored_object_witness :
  server.read_resource chunked ("tos://" ++ "a" ++ "/" ++ "dir/n.txt")
  = ([Request "get_object" (args [PStr "a"; PStr "dir/n.txt"]);
      Response "get_object" (args [PStr "a"; PStr "dir/n.txt"])],
     inr "aGVsbG8=").
Proof.
  exact (read_resource_of_stored_object chunked "a" "dir/n.txt" chunked_output
           eq_refl eq_refl).
Defined.

(** X18. The payload of a tool that succeeds is one [TextContent] of type
    ["text"]: for ["ListBuckets"] the Python list literal of the names of
    all buckets of the answer, for ["ListObjectsV2"] the text of the answer,
    for ["GetObject"] the body decoded as UTF-8. *)
Theorem call_tool_success_payloads (tos_resource : TosResource.t) (arguments : dict pyval) :
  (forall output,
      Client.list_buckets (TosResource.client tos_resource) = inr output ->
      result (server.call_tool tos_resource "ListBuckets" arguments)
      = inr [ {| TextContent.type := "text";
                 TextContent.text :=
                   Py.repr_list (map ListedBucket.name (ListBucketsOutput.buckets output)) |} ])
  /\ (forall output,
        Client.list_objects (TosResource.client tos_resource) (kwargs arguments) = inr output ->
        result (server.call_tool tos_resource "ListObjectsV2" arguments)
        = inr [ {| TextContent.type := "text";
                   TextContent.text := ListObjectsOutput.text output |} ])
  /\ (forall output,
        Client.get_object (TosResource.client tos_resource) (kwargs arguments) = inr output ->
        Py.utf8_scan Py.Start 0 (StreamBody.read (GetObjectOutput.content output)) = None ->
        result (server.call_tool tos_resource "GetObject" arguments)
        = inr [ {| TextContent.type := "text";
                   TextContent.text :=
                     string_of_list_byte
                       (StreamBody.read (GetObjectOutput.content output)) |} ]).
Proof.
  split; [|split].
  - intros [B] HB. now apply call_tool_ListBuckets_result.
  - intros output Hout. unfold server.call_tool, call.
    cbn [String.eqb Ascii.eqb Bool.eqb]. rewrite Hout. reflexivity.
  - intros output Hout Hutf. now apply call_tool_GetObject_success.
Qed.

Lemma call_tool_success_payloads_witness :
  result (server.call_tool chunked "ListBuckets" [])
  = inr [ {| TextContent.type := "text"; TextContent.text := "['a']" |} ]
  /\ result (server.call_tool chunked "ListObjectsV2" [("Bucket", PStr "a")])
     = inr [ {| TextContent.type := "text"; TextContent.text := "<ListObjectsOutput>" |} ]
  /\ result (server.call_tool chunked "GetObject" [("Bucket", PStr "a"); ("Key", PStr "k")])
     = inr [ {| TextContent.type := "text"; TextContent.text := "hello" |} ].
Proof.
  split; [|split].
  - exact (proj1 (call_tool_success_payloads chunked []) _ eq_refl).
  - exact (proj1 (proj2 (call_tool_success_payloads chunked [("Bucket", PStr "a")]))
             _ eq_refl).
  - exact (proj2 (proj2 (call_tool_success_payloads chunked
                           [("Bucket", PStr "a"); ("Key", PStr "k")]))
             chunked_output eq_refl eq_refl).
Defined.

(** X19. However a tool fails, [call_tool] ends the same way: a value it
    returns is one payload of type ["text"], and an exception it raises is
    the [ValidationError] of the payload without [type], whatever the
    exception behind it was. *)
Theorem call_tool_failures_look_alike
    (tos_resource : TosResource.t) (name : string) (arguments : dict pyval) :
  (forall payloads,
      result (server.call_tool tos_resource name arguments) = inr payloads ->
      exists text, payloads = [ {| TextContent.type := "text"; TextContent.text := text |} ])
  /\ (forall e,
        result (server.call_tool tos_resource name arguments) = inl e ->
        e = ValidationError "TextContent" "type").
Proof.
  destruct (call_tool_outcomes tos_resource name arguments) as [[text ->] | ->]; split.
  - intros payloads [= <-]. now exists text.
  - discriminate.
  - discriminate.
  - now intros e [= <-].
Qed.

Lemma call_tool_failures_look_alike_witness :
  (exists text,
      [ {| TextContent.type := "text"; TextContent.text := "['a']" |} ]
      = [ {| TextContent.type := "text"; TextContent.text := text |} ])
  /\ ValidationError "TextContent" "type" = ValidationError "TextContent" "type".
Proof.
  split.
  - exact (proj1 (call_tool_failures_look_alike chunked "ListBuckets" []) _ eq_refl).
  - exact (proj2 (call_tool_failures_look_alike
                    (failing (OtherError "TimeoutError" "timed out")) "ListBuckets" [])
             _ eq_refl).
Defined.

(** X20. Under a non-empty allow-list [list_resources] never asks the
    storage service for the objects of a bucket outside the list: each of
    its requests is the enumeration or the listing of an allowed bucket. *)
Theorem list_resources_lists_allowed_buckets_only
    (tos_resource : TosResource.t) (method : string) (a : call_args) :
  TosResource.configured_buckets tos_resource <> [] ->
  In (method, a) (requests (events (server.list_resources tos_resource))) ->
  (method, a) = ("list_buckets", no_args)
  \/ exists bucket,
      In bucket (TosResource.configured_buckets tos_resource)
      /\ (method, a) = listing_request bucket "" None.
Proof.
  intros HL. rewrite requests_list_resources. intros [<- | Hin]; [now left|]. right.
  destruct (result (TosResource.list_buckets tos_resource)) as [e | B] eqn:HB;
    [contradiction|].
  apply in_map_iff in Hin as [b [<- Hb]]. exists (ListedBucket.name b). split; [|reflexivity].
  exact (list_buckets_within_allow_list tos_resource B HL HB b Hb).
Qed.

Lemma list_resources_lists_allowed_buckets_only_witness :
  listing_request "a" "" None = ("list_buckets", no_args)
  \/ exists bucket,
      In bucket (TosResource.configured_buckets (demo ["a"]))
      /\ listing_request "a" "" None = listing_request bucket "" None.
Proof.
  apply (list_resources_lists_allowed_buckets_only
           (demo ["a"]) (fst (listing_request "a" "" None)) (snd (listing_request "a" "" None))).
  - discriminate.
  - right. left. reflexivity.
Defined.

(** ** The encoding loses nothing *)

Lemma byte_of_to_N (x : byte) : byte_of (Byte.to_N x) = x.
Proof. unfold byte_of. now rewrite Byte.of_to_N. Qed.

Lemma in_all_bytes (x : byte) : In x all_bytes.
Proof.
  unfold all_bytes. apply in_map_iff. exists (N.to_nat (Byte.to_N x)). split.
  - rewrite N2Nat.id. apply byte_of_to_N.
  - apply in_seq. pose proof (Byte.to_N_bounded x). lia.
Qed.

Lemma for_all_bytes (P : byte -> bool) :
  forallb P all_bytes = true -> forall x, P x = true.
Proof. intros H x. rewrite forallb_forall in H. apply H, in_all_bytes. Qed.

Lemma for_all_bytes2 (P : byte -> byte -> bool) :
  forallb (fun x => forallb (P x) all_bytes) all_bytes = true -> forall x y, P x y = true.
Proof.
  intros H x y. apply (for_all_bytes (P x)). revert x. now apply for_all_bytes.
Qed.

Lemma b64_index_char (n : N) : (n < 64)%N -> b64_index (Py.b64_char n) = n.
Proof.
  intros Hn.
  assert (H : forallb (fun k => (b64_index (Py.b64_char (N.of_nat k)) =? N.of_nat k)%N)
                      (seq 0 64) = true) by (vm_compute; reflexivity).
  rewrite forallb_forall in H. specialize (H (N.to_nat n)).
  rewrite N2Nat.id in H. apply N.eqb_eq, H, in_seq. lia.
Qed.

Lemma b64_char_not_pad (n : N) : (n < 64)%N -> Byte.eqb (Py.b64_char n) Py.b64_pad = false.
Proof.
  intros Hn.
  assert (H : forallb (fun k => negb (Byte.eqb (Py.b64_char (N.of_nat k)) Py.b64_pad))
                      (seq 0 64) = true) by (vm_compute; reflexivity).
  rewrite forallb_forall in H. specialize (H (N.to_nat n)).
  rewrite N2Nat.id in H. apply negb_true_iff, H, in_seq. lia.
Qed.

(** The four sextets of a group of three bytes. *)
Lemma sextet_bounds (x y : byte) :
  (N.shiftr (Byte.to_N x) 2 < 64
   /\ N.lor (N.shiftl (N.land (Byte.to_N x) 3) 4) (N.shiftr (Byte.to_N y) 4) < 64
   /\ N.lor (N.shiftl (N.land (Byte.to_N x) 15) 2) (N.shiftr (Byte.to_N y) 6) < 64
   /\ N.land (Byte.to_N x) 63 < 64
   /\ N.shiftl (N.land (Byte.to_N x) 3) 4 < 64
   /\ N.shiftl (N.land (Byte.to_N x) 15) 2 < 64)%N.
Proof.
  pose proof (for_all_bytes2
    (fun x y =>
       let a := Byte.to_N x in
       let b := Byte.to_N y in
       (N.shiftr a 2 <? 64)%N
       && (N.lor (N.shiftl (N.land a 3) 4) (N.shiftr b 4) <? 64)%N
       && (N.lor (N.shiftl (N.land a 15) 2) (N.shiftr b 6) <? 64)%N
       && (N.land a 63 <? 64)%N
       && (N.shiftl (N.land a 3) 4 <? 64)%N
       && (N.shiftl (N.land a 15) 2 <? 64)%N)
    ltac:(vm_compute; reflexivity) x y) as H.
  cbv zeta in H. rewrite !andb_true_iff, !N.ltb_lt in H. tauto.
Qed.

Lemma sextet_arithmetic (x y : byte) :
  let a := Byte.to_N x in
  let b := Byte.to_N y in
  (N.lor (N.shiftl (N.shiftr a 2) 2)
         (N.shiftr (N.lor (N.shiftl (N.land a 3) 4) (N.shiftr b 4)) 4) = a
   /\ N.land (N.lor (N.shiftl (N.land a 3) 4) (N.shiftr b 4)) 15 = N.shiftr b 4
   /\ N.shiftr (N.lor (N.shiftl (N.land a 15) 2) (N.shiftr b 6)) 2 = N.land a 15
   /\ N.lor (N.shiftl (N.shiftr a 4) 4) (N.land a 15) = a
   /\ N.lor (N.shiftl (N.land (N.lor (N.shiftl (N.land a 15) 2) (N.shiftr b 6)) 3) 6)
            (N.land b 63) = b
   /\ N.lor (N.shiftl (N.shiftr a 2) 2) (N.shiftr (N.shiftl (N.land a 3) 4) 4) = a
   /\ N.shiftr (N.shiftl (N.land a 15) 2) 2 = N.land a 15)%N.
Proof.
  pose proof (for_all_bytes2
    (fun x y =>
       let a := Byte.to_N x in
       let b := Byte.to_N y in
       (N.lor (N.shiftl (N.shiftr a 2) 2)
              (N.shiftr (N.lor (N.shiftl (N.land a 3) 4) (N.shiftr b 4)) 4) =? a)%N
       && (N.land (N.lor (N.shiftl (N.land a 3) 4) (N.shiftr b 4)) 15 =? N.shiftr b 4)%N
       && (N.shiftr (N.lor (N.shiftl (N.land a 15) 2) (N.shiftr b 6)) 2 =? N.land a 15)%N
       && (N.lor (N.shiftl (N.shiftr a 4) 4) (N.land a 15) =? a)%N
       && (N.lor (N.shiftl (N.land (N.lor (N.shiftl (N.land a 15) 2) (N.shiftr b 6)) 3) 6)
                 (N.land b 63) =? b)%N
       && (N.lor (N.shiftl (N.shiftr a 2) 2) (N.shiftr (N.shiftl (N.land a 3) 4) 4) =? a)%N
       && (N.shiftr (N.shiftl (N.land a 15) 2) 2 =? N.land a 15)%N)
    ltac:(vm_compute; reflexivity) x y) as H.
  cbv zeta in H |- *. rewrite !andb_true_iff, !N.eqb_eq in H. tauto.
Qed.

Lemma b64decode_b64encode (b : bytes) : b64decode (Py.b64encode b) = b.
Proof.
  assert (H : forall n (b : bytes), (List.length b <= n)%nat ->
                                   b64decode (Py.b64encode b) = b).
  { induction n as [|n IH]; intros [|x [|y [|z rest]]] Hlen; cbn [List.length] in Hlen;
      try reflexivity; try lia.
    - (* one byte *)
      cbn [Py.b64encode b64decode]. cbv zeta.
      change (Byte.eqb Py.b64_pad Py.b64_pad) with true. cbv iota.
      destruct (sextet_bounds x x) as (B0 & _ & _ & _ & B4 & _).
      destruct (sextet_arithmetic x x) as (_ & _ & _ & _ & _ & A5 & _). cbv zeta in A5.
      rewrite !b64_index_char by assumption. now rewrite A5, byte_of_to_N.
    - (* two bytes *)
      cbn [Py.b64encode b64decode]. cbv zeta.
      change (Byte.eqb Py.b64_pad Py.b64_pad) with true.
      destruct (sextet_bounds x y) as (B0 & B1 & _).
      destruct (sextet_bounds y y) as (_ & _ & _ & _ & _ & B5).
      destruct (sextet_arithmetic x y) as (A0 & A1 & _). cbv zeta in A0, A1.
      destruct (sextet_arithmetic y y) as (_ & _ & _ & A3 & _ & _ & A6). cbv zeta in A3, A6.
      rewrite (b64_char_not_pad _ B5).
      rewrite !b64_index_char by assumption.
      now rewrite A0, A1, A6, A3, !byte_of_to_N.
    - (* a group of three *)
      cbn [Py.b64encode b64decode]. cbv zeta.
      destruct (sextet_bounds x y) as (B0 & B1 & _).
      destruct (sextet_bounds y z) as (_ & _ & B2 & _).
      destruct (sextet_bounds z z) as (_ & _ & _ & B3 & _).
      destruct (sextet_arithmetic x y) as (A0 & A1 & _). cbv zeta in A0, A1.
      destruct (sextet_arithmetic y z) as (_ & _ & A2 & A3 & A4 & _). cbv zeta in A2, A3, A4.
      rewrite (b64_char_not_pad _ B2), (b64_char_not_pad _ B3).
      rewrite !b64_index_char by assumption.
      rewrite A0, A1, A2, A3, A4, !byte_of_to_N.
      do 3 f_equal. apply IH. lia. }
  now apply (H (List.length b)).
Qed.

Lemma b64encode_injective (b1 b2 : bytes) :
  Py.b64encode b1 = Py.b64encode b2 -> b1 = b2.
Proof.
  intros H. apply (f_equal b64decode) in H. now rewrite !b64decode_b64encode in H.
Qed.

Lemma string_of_list_byte_injective (b1 b2 : bytes) :
  string_of_list_byte b1 = string_of_list_byte b2 -> b1 = b2.
Proof.
  intros H. apply (f_equal list_byte_of_string) in H.
  now rewrite !list_byte_of_string_of_list_byte in H.
Qed.

Lemma append_cancel_r (s s' t : string) : (s ++ t = s' ++ t)%string -> s = s'.
Proof.
  revert s'. induction s as [|c s IH]; intros [|c' s'] H; cbn [append] in H.
  - reflexivity.
  - apply (f_equal String.length) in H. cbn [String.length] in H.
    rewrite append_length in H. lia.
  - apply (f_equal String.length) in H. cbn [String.length] in H.
    rewrite append_length in H. lia.
  - injection H as <- H. f_equal. now apply IH.
Qed.

(** X21. The value of [read_resource] determines the content: if two
    reads of the same URI return the same value, the two objects fetched
    hold the same bytes, under a text key and under any other key. *)
Theorem read_resource_value_determines_content
    (r1 r2 : TosResource.t) (bucket key : string) (response1 response2 : GetObjectOutput.t) :
  Py.contains_char "/" bucket = false ->
  Client.get_object (TosResource.client r1) (args [PStr bucket; PStr key]) = inr response1 ->
  Client.get_object (TosResource.client r2) (args [PStr bucket; PStr key]) = inr response2 ->
  result (server.read_resource r1 ("tos://" ++ bucket ++ "/" ++ key))
  = result (server.read_resource r2 ("tos://" ++ bucket ++ "/" ++ key)) ->
  StreamBody.read (GetObjectOutput.content response1)
  = StreamBody.read (GetObjectOutput.content response2).
Proof.
  intros Hb H1 H2.
  rewrite (read_resource_on_stored_object r1 bucket key response1 Hb H1).
  rewrite (read_resource_on_stored_object r2 bucket key response2 Hb H2).
  destruct (TosResource.is_text_file key); intros [= H].
  - now apply b64encode_injective, string_of_list_byte_injective.
  - apply b64encode_injective, string_of_list_byte_injective.
    now apply (append_cancel_r _ _ "'").
Qed.

Lemma read_resource_value_determines_content_witness :
  StreamBody.read (GetObjectOutput.content chunked_output)
  = StreamBody.read
      {| StreamBody.data := [list_byte_of_string "hello"]; StreamBody.items := [] |}.
Proof.
  apply (read_resource_value_determines_content
           chunked
           (with_allow_list []
              {| TosResource.client :=
                   {| Client.list_buckets := inl (ValueError "unused");
                      Client.list_objects := fun _ => inl (ValueError "unused");
                      Client.get_object := fun _ =>
                        inr {| GetObjectOutput.content_type := None;
                               GetObjectOutput.content :=
                                 {| StreamBody.data := [list_byte_of_string "hello"];
                                    StreamBody.items := [] |} |} |};
                 TosResource.max_buckets := 1;
                 TosResource.configured_buckets := [] |})
           "a" "k" chunked_output _ eq_refl eq_refl eq_refl eq_refl).
Defined.

Lemma call_tool_dispatches_listed_tools_witness :
  (In "GetObject" (map Tool.name listed_tools)
   <-> requests (events (server.call_tool chunked "GetObject" [])) <> [])
  /\ incl (required_parameters
             (JObject [("type", JString "object");
                       ("properties", JObject []);
                       ("required", JArray [])]))
          (declared_parameters
             (JObject [("type", JString "object");
                       ("properties", JObject []);
                       ("required", JArray [])])).
Proof.
  split.
  - exact (proj1 (proj2 call_tool_dispatches_listed_tools) chunked "GetObject" []).
  - exact (proj2 (proj2 call_tool_dispatches_listed_tools) _ (or_introl eq_refl)).
Defined.
